(** * Albayan: the navigation and rendering core ([core_functions/quran_class.py])

    A shallow embedding of [QuranConst] and [quran_mgr]: the category table,
    the five category selectors, the range query, the sequential and jump
    operations and the renderer [get_text] that builds the rendered text
    together with the position index, and the look-up by verse number
    [get_by_ayah_number].  [get_ayah_info] starts from a look-up in the
    position index whose code is not part of the module and is not
    embedded.

    Conventions.
    - A Python [str] is a list of Unicode code points ([pystr]); [len] is the
      list length.  SQL statements are ASCII and kept as [string].
    - A Python [int] is a [Z].  Arguments that default to [False] are
      [pyval]s, a [bool] or an [int].
    - [self] is the record [quran_mgr]; a method is a function from the
      state to an [outcome]: a returned value or a raised exception, with
      the state reached in both cases.
    - The sqlite3 cursor is external.  It is modelled as a table of rows
      and an interpreter of the statement text, restricted to the shapes
      this module sends; the statements it was sent are kept in a ghost
      field. *)

From Stdlib Require Import ZArith List String Ascii Bool Lia.
From Stdlib Require Import DecimalString.
From Stdlib Require DecimalFacts DecimalPos DecimalZ.
Import ListNotations.

Local Open Scope Z_scope.

(* ================================================================= *)
(** ** Python strings and values *)

Definition char := N.
Definition pystr := list char.

Definition of_string (s : string) : pystr :=
  map N_of_ascii (list_ascii_of_string s).

Definition space : char := 32%N.
Definition newline : char := 10%N.

(** [str(n)] for an [int]. *)
Definition str_Z (z : Z) : string := NilZero.string_of_int (Z.to_int z).

Inductive pyval :=
| PyBool (b : bool)
| PyInt (z : Z).

(** The numeric value of a [bool] or [int]: what comparisons and [int(v)]
    see. *)
Definition py_int (v : pyval) : Z :=
  match v with
  | PyBool true => 1
  | PyBool false => 0
  | PyInt z => z
  end.

(** [if v:] *)
Definition truthy (v : pyval) : bool := negb (py_int v =? 0).

(** [v is False] *)
Definition is_False (v : pyval) : bool :=
  match v with
  | PyBool false => true
  | _ => false
  end.

(** [f"{v}"] *)
Definition py_str (v : pyval) : string :=
  match v with
  | PyBool true => "True"
  | PyBool false => "False"
  | PyInt z => str_Z z
  end.

Inductive exn :=
| AttributeError
| IndexError
| ValueError
| OperationalError.

Inductive result (A : Type) :=
| Ok (a : A)
| Err (e : exn).
Arguments Ok {A} a.
Arguments Err {A} e.

(** [t[i]] on a tuple: negative indices count from the end. *)
Definition py_index {A : Type} (t : list A) (i : Z) : result A :=
  let n := Z.of_nat (List.length t) in
  let j := if i <? 0 then i + n else i in
  if (j <? 0) || (n <=? j) then Err IndexError
  else match nth_error t (Z.to_nat j) with
       | Some a => Ok a
       | None => Err IndexError
       end.

(* ================================================================= *)
(** ** QuranConst *)

Module QuranConst.

Definition max_page : Z := 604.
Definition max_surah_number : Z := 114.
Definition max_juz : Z := 30.
Definition max_hizb : Z := 60.
Definition max_hizb_quarter : Z := 240.

Definition _max : list Z :=
  [max_page; max_surah_number; max_hizb_quarter; max_hizb; max_juz].

Definition _category_labels : list pystr :=
  [ [1589; 1601; 1581; 1577]; [1587; 1608; 1585; 1577]; [1585; 1576; 1593];
    [1581; 1586; 1576]; [1580; 1586; 1569] ]%N.

Definition get_max (category_number : Z) : result Z :=
  py_index _max category_number.

Definition get_category_label (category_number : Z) : result pystr :=
  py_index _category_labels category_number.

End QuranConst.

(* ================================================================= *)
(** ** The verse table and the sqlite3 cursor

    The [quran] table is external.  A row carries the columns the module
    reads: columns 0 to 4 by position in [get_text] ([text], [number],
    [sura_name], [sura_number], [numberInSurah]) and the four coordinate
    columns by name in the [WHERE] clauses.  The remaining columns and the
    two [None] slots appended to every [data_list] tuple are never read and
    are left out, so the comprehension that builds [data_list] is the
    identity on rows. *)

Record row := mk_row {
  r_text : pystr;
  r_number : Z;
  r_sura_name : pystr;
  r_sura_number : Z;
  r_numberInSurah : Z;
  r_juz : Z;
  r_hizb : Z;
  r_page : Z;
  r_hizbQuarter : Z
}.

Inductive column :=
| ColNumber | ColSuraNumber | ColNumberInSurah
| ColJuz | ColHizb | ColPage | ColHizbQuarter.

Definition column_value (c : column) (r : row) : Z :=
  match c with
  | ColNumber => r_number r
  | ColSuraNumber => r_sura_number r
  | ColNumberInSurah => r_numberInSurah r
  | ColJuz => r_juz r
  | ColHizb => r_hizb r
  | ColPage => r_page r
  | ColHizbQuarter => r_hizbQuarter r
  end.

(** *** Tokens of a statement

    The cursor receives the statement as text.  The tokenizer is a
    one-pass automaton: blanks separate tokens, identifiers and keywords
    are case-insensitive (kept in lower case), a quote opens a string
    literal that must be closed, and any other character is an
    unrecognized token. *)

Inductive token :=
| TId (s : string)
| TNum (n : Z)
| TStr (s : string)
| TStar | TEq | TGt | TGe | TMinus | TQMark.

Inductive lstate :=
| LStart
| LIdent (acc : string)
| LNum (acc : Decimal.uint)
| LGt
| LStr (acc : string).

Definition is_blank (c : ascii) : bool :=
  let n := N_of_ascii c in
  ((n =? 32) || (n =? 9) || (n =? 10) || (n =? 13))%N.

Definition is_alpha (c : ascii) : bool :=
  let n := N_of_ascii c in
  (((65 <=? n) && (n <=? 90)) || ((97 <=? n) && (n <=? 122)) || (n =? 95))%N.

Definition lower (c : ascii) : ascii :=
  let n := N_of_ascii c in
  if ((65 <=? n) && (n <=? 90))%N then ascii_of_N (n + 32) else c.

Definition digit_of (c : ascii) : option (Decimal.uint -> Decimal.uint) :=
  match c with
  | "0" => Some Decimal.D0 | "1" => Some Decimal.D1 | "2" => Some Decimal.D2
  | "3" => Some Decimal.D3 | "4" => Some Decimal.D4 | "5" => Some Decimal.D5
  | "6" => Some Decimal.D6 | "7" => Some Decimal.D7 | "8" => Some Decimal.D8
  | "9" => Some Decimal.D9
  | _ => None
  end%char.

Definition is_digit (c : ascii) : bool :=
  match digit_of c with
  | Some _ => true
  | None => false
  end.

(** The token, if any, that ends when the automaton leaves state [st]. *)
Definition flush (st : lstate) : list token :=
  match st with
  | LStart => []
  | LIdent acc => [TId acc]
  | LNum acc => [TNum (Z.of_uint (Decimal.rev acc))]
  | LGt => [TGt]
  | LStr _ => []
  end.

(** A character read outside any token. *)
Definition lex_start (c : ascii) : option (list token * lstate) :=
  if is_blank c then Some ([], LStart)
  else if is_alpha c then Some ([], LIdent (String (lower c) EmptyString))
  else
    match digit_of c with
    | Some d => Some ([], LNum (d Decimal.Nil))
    | None =>
        match c with
        | "*" => Some ([TStar], LStart)
        | "=" => Some ([TEq], LStart)
        | ">" => Some ([], LGt)
        | "-" => Some ([TMinus], LStart)
        | "?" => Some ([TQMark], LStart)
        | "'" => Some ([], LStr EmptyString)
        | _ => None
        end%char
    end.

Definition lex_close (st : lstate) (c : ascii) : option (list token * lstate) :=
  match lex_start c with
  | Some (ts, st') => Some (flush st ++ ts, st')
  | None => None
  end.

Definition lex_step (st : lstate) (c : ascii) : option (list token * lstate) :=
  match st with
  | LStart => lex_start c
  | LIdent acc =>
      if is_alpha c || is_digit c
      then Some ([], LIdent (acc ++ String (lower c) EmptyString)%string)
      else lex_close st c
  | LNum acc =>
      match digit_of c with
      | Some d => Some ([], LNum (d acc))
      | None => if is_alpha c then None else lex_close st c
      end
  | LGt =>
      if Ascii.eqb c "=" then Some ([TGe], LStart) else lex_close st c
  | LStr acc =>
      if Ascii.eqb c "'" then Some ([TStr acc], LStart)
      else Some ([], LStr (acc ++ String c EmptyString)%string)
  end.

Fixpoint lex_run (st : lstate) (s : string) : option (list token * lstate) :=
  match s with
  | EmptyString => Some ([], st)
  | String c s' =>
      match lex_step st c with
      | None => None
      | Some (ts, st') =>
          match lex_run st' s' with
          | None => None
          | Some (ts', st'') => Some (ts ++ ts', st'')
          end
      end
  end.

(** A string literal still open at the end of the text is an unrecognized
    token. *)
Definition tokenize (s : string) : option (list token) :=
  match lex_run LStart s with
  | Some (ts, LStr _) => None
  | Some (ts, st) => Some (ts ++ flush st)
  | None => None
  end.

(** *** Statements

    The shapes [quran_mgr] sends: a projection ([*] or one column) of
    [quran] filtered by one comparison or one [BETWEEN] on an integer
    column.  A value is an integer literal, [TRUE], [FALSE] or a [?]
    placeholder bound to the next parameter.  Any other token sequence is
    refused; for the statements the methods below build from integers this
    never happens ([execute_with_number], [execute_between]), except for
    the one literal that does not tokenize. *)

Inductive cmpop := OpEq | OpGe | OpGt.

Inductive condition :=
| Cmp (c : column) (op : cmpop) (v : Z)
| Between (c : column) (lo hi : Z).

Inductive projection :=
| AllColumns
| OneColumn (c : column).

Record select_stmt := mk_select {
  sel_proj : projection;
  sel_where : condition
}.

Definition column_of_name (s : string) : option column :=
  if (s =? "number")%string then Some ColNumber
  else if (s =? "sura_number")%string then Some ColSuraNumber
  else if (s =? "numberinsurah")%string then Some ColNumberInSurah
  else if (s =? "juz")%string then Some ColJuz
  else if (s =? "hizb")%string then Some ColHizb
  else if (s =? "page")%string then Some ColPage
  else if (s =? "hizbquarter")%string then Some ColHizbQuarter
  else None.

Definition is_kw (kw : string) (t : token) : bool :=
  match t with
  | TId s => (s =? kw)%string
  | _ => false
  end.

Definition parse_value (ts : list token) (ps : list pyval)
  : option (Z * list token * list pyval) :=
  match ts with
  | TNum n :: r => Some (n, r, ps)
  | TMinus :: TNum n :: r => Some (- n, r, ps)
  | TQMark :: r =>
      match ps with
      | p :: ps' => Some (py_int p, r, ps')
      | [] => None
      end
  | TId s :: r =>
      if (s =? "true")%string then Some (1, r, ps)
      else if (s =? "false")%string then Some (0, r, ps)
      else None
  | _ => None
  end.

Definition parse_condition (ts : list token) (ps : list pyval)
  : option (condition * list token * list pyval) :=
  match ts with
  | TId c :: t :: r =>
      match column_of_name c with
      | None => None
      | Some col =>
          if is_kw "between" t then
            match parse_value r ps with
            | Some (lo, t' :: r', ps') =>
                if is_kw "and" t' then
                  match parse_value r' ps' with
                  | Some (hi, r'', ps'') => Some (Between col lo hi, r'', ps'')
                  | None => None
                  end
                else None
            | _ => None
            end
          else
            match
              match t with
              | TEq => Some OpEq
              | TGe => Some OpGe
              | TGt => Some OpGt
              | _ => None
              end
            with
            | None => None
            | Some op =>
                match parse_value r ps with
                | Some (v, r', ps') => Some (Cmp col op v, r', ps')
                | None => None
                end
            end
      end
  | _ => None
  end.

Definition parse_projection (ts : list token)
  : option (projection * list token) :=
  match ts with
  | TStar :: r => Some (AllColumns, r)
  | TId c :: r =>
      match column_of_name c with
      | Some col => Some (OneColumn col, r)
      | None => None
      end
  | _ => None
  end.

(** The whole statement; every token and every parameter must be used. *)
Definition parse_select (ts : list token) (ps : list pyval)
  : option select_stmt :=
  match ts with
  | k1 :: r1 =>
      if is_kw "select" k1 then
        match parse_projection r1 with
        | Some (proj, k2 :: k3 :: k4 :: r2) =>
            if is_kw "from" k2 && is_kw "quran" k3 && is_kw "where" k4 then
              match parse_condition r2 ps with
              | Some (cond, [], []) => Some (mk_select proj cond)
              | _ => None
              end
            else None
        | _ => None
        end
      else None
  | [] => None
  end.

Definition compare_with (op : cmpop) (a b : Z) : bool :=
  match op with
  | OpEq => a =? b
  | OpGe => b <=? a
  | OpGt => b <? a
  end.

Definition holds (c : condition) (r : row) : bool :=
  match c with
  | Cmp col op v => compare_with op (column_value col r) v
  | Between col lo hi =>
      (lo <=? column_value col r) && (column_value col r <=? hi)
  end.

(** What [fetchall()] returns: full rows for [SELECT *], 1-tuples of
    integers for a single column.  Rows come in table order. *)
Inductive resultset :=
| Rows (rs : list row)
| Ints (ns : list Z).

Definition run_select (q : select_stmt) (t : list row) : resultset :=
  let rs := filter (holds (sel_where q)) t in
  match sel_proj q with
  | AllColumns => Rows rs
  | OneColumn c => Ints (map (column_value c) rs)
  end.

(** The cursor: the table behind the connection and, as a ghost field,
    every statement passed to [execute] with its parameters, oldest
    first. *)
Record sqlite_cursor := mk_cursor {
  table : list row;
  executed : list (string * list pyval)
}.

(** [cursor.execute(sql, params)] followed by [cursor.fetchall()]. *)
Definition cursor_execute (c : sqlite_cursor) (sql : string) (ps : list pyval)
  : sqlite_cursor * result resultset :=
  let c' := mk_cursor (table c) (executed c ++ [(sql, ps)]) in
  match tokenize sql with
  | None => (c', Err OperationalError)
  | Some ts =>
      match parse_select ts ps with
      | None => (c', Err OperationalError)
      | Some q => (c', Ok (run_select q (table c)))
      end
  end.

(** [len(result)] *)
Definition len_result (r : resultset) : Z :=
  match r with
  | Rows rs => Z.of_nat (List.length rs)
  | Ints ns => Z.of_nat (List.length ns)
  end.

(** [int(result[0][0])]: column 0 of the first tuple.  Column 0 of a full
    row is the verse text, which is not a number. *)
Definition first_int (r : resultset) : result Z :=
  match r with
  | Ints (n :: _) => Ok n
  | Ints [] => Err IndexError
  | Rows (_ :: _) => Err ValueError
  | Rows [] => Err IndexError
  end.

(** The list comprehension over [rows] that reads [row[0]] to [row[10]]:
    a 1-tuple has no [row[1]]. *)
Definition full_rows (r : resultset) : result (list row) :=
  match r with
  | Rows rs => Ok rs
  | Ints [] => Ok []
  | Ints (_ :: _) => Err IndexError
  end.

(* ================================================================= *)
(** ** Python string operations used by the renderer *)

(** [s.startswith(p)] *)
Fixpoint starts_with (p s : pystr) : bool :=
  match p, s with
  | [], _ => true
  | _ :: _, [] => false
  | a :: p', b :: s' => (a =? b)%N && starts_with p' s'
  end.

(** The scan of [str.replace] for a non-empty [old]: left to right, an
    occurrence found at the current position is replaced and the scan
    resumes after it ([skip] counts the characters of the occurrence still
    to pass). *)
Fixpoint replace_from (old new : pystr) (skip : nat) (s : pystr) : pystr :=
  match s with
  | [] => []
  | c :: s' =>
      match skip with
      | S k => replace_from old new k s'
      | O =>
          if starts_with old s
          then new ++ replace_from old new (List.length old - 1) s'
          else c :: replace_from old new 0 s'
      end
  end.

(** [s.replace(old, new)] *)
Definition replace (old new s : pystr) : pystr :=
  match old with
  | [] => new ++ flat_map (fun c => c :: new) s
  | _ :: _ => replace_from old new 0 s
  end.

Fixpoint lstrip (c : char) (s : pystr) : pystr :=
  match s with
  | [] => []
  | x :: s' => if (x =? c)%N then lstrip c s' else s
  end.

(** [s.strip(c)] for a one-character [c] *)
Definition strip (c : char) (s : pystr) : pystr :=
  rev (lstrip c (rev (lstrip c s))).

(** [p in s] *)
Fixpoint contains (p s : pystr) : bool :=
  starts_with p s ||
  match s with
  | [] => false
  | _ :: s' => contains p s'
  end.

(* ================================================================= *)
(** ** AyahData *)

Module AyahData.

(** Modelled from the spec: [core_functions/ayah_data.py] is not part of
    the sources at hand.  The position index is the sequence of entries
    (verse global number, start offset, end offset) in insertion order;
    [insert] appends one span and validates nothing. *)
Definition t := list (Z * Z * Z).

Definition empty : t := [].

Definition insert (d : t) (ayah_number first_position last_position : Z) : t :=
  d ++ [(ayah_number, first_position, last_position)].

End AyahData.

(* ================================================================= *)
(** ** quran_mgr *)

Record quran_mgr := mk_mgr {
  show_ayah_number : bool;
  aya_to_line : bool;
  current_pos : Z;
  max_pos : Z;
  type : Z;
  data_list : list row;
  cursor : option sqlite_cursor;
  text : pystr;
  ayah_data : option AyahData.t
}.

Definition set_current_pos (v : Z) (s : quran_mgr) : quran_mgr :=
  mk_mgr (show_ayah_number s) (aya_to_line s) v (max_pos s) (type s)
         (data_list s) (cursor s) (text s) (ayah_data s).

Definition set_max_pos (v : Z) (s : quran_mgr) : quran_mgr :=
  mk_mgr (show_ayah_number s) (aya_to_line s) (current_pos s) v (type s)
         (data_list s) (cursor s) (text s) (ayah_data s).

Definition set_type (v : Z) (s : quran_mgr) : quran_mgr :=
  mk_mgr (show_ayah_number s) (aya_to_line s) (current_pos s) (max_pos s) v
         (data_list s) (cursor s) (text s) (ayah_data s).

Definition set_data_list (v : list row) (s : quran_mgr) : quran_mgr :=
  mk_mgr (show_ayah_number s) (aya_to_line s) (current_pos s) (max_pos s)
         (type s) v (cursor s) (text s) (ayah_data s).

Definition set_cursor (v : option sqlite_cursor) (s : quran_mgr) : quran_mgr :=
  mk_mgr (show_ayah_number s) (aya_to_line s) (current_pos s) (max_pos s)
         (type s) (data_list s) v (text s) (ayah_data s).

Definition set_text (v : pystr) (s : quran_mgr) : quran_mgr :=
  mk_mgr (show_ayah_number s) (aya_to_line s) (current_pos s) (max_pos s)
         (type s) (data_list s) (cursor s) v (ayah_data s).

Definition set_ayah_data (v : option AyahData.t) (s : quran_mgr) : quran_mgr :=
  mk_mgr (show_ayah_number s) (aya_to_line s) (current_pos s) (max_pos s)
         (type s) (data_list s) (cursor s) (text s) v.

(** [__init__] *)
Definition init : quran_mgr :=
  mk_mgr true false 1 604 0 [] None [] None.

(** [load_quran]: the database file is the table it holds. *)
Definition load_quran (db : list row) (s : quran_mgr) : quran_mgr :=
  set_cursor (Some (mk_cursor db [])) s.

(** *** Methods as state transformers that may raise *)

Inductive outcome (A : Type) :=
| Return (a : A) (s : quran_mgr)
| Raise (e : exn) (s : quran_mgr).
Arguments Return {A} a s.
Arguments Raise {A} e s.

Definition M (A : Type) := quran_mgr -> outcome A.

Definition ret {A : Type} (a : A) : M A := fun s => Return a s.

Definition bind {A B : Type} (m : M A) (k : A -> M B) : M B :=
  fun s =>
    match m s with
    | Return a s' => k a s'
    | Raise e s' => Raise e s'
    end.

Notation "x <- m ;; k" := (bind m (fun x => k))
  (at level 61, m at next level, right associativity).
Notation "m ;; k" := (bind m (fun _ => k))
  (at level 61, right associativity).

Definition modify (f : quran_mgr -> quran_mgr) : M unit :=
  fun s => Return tt (f s).

Definition lift {A : Type} (r : result A) : M A :=
  fun s =>
    match r with
    | Ok a => Return a s
    | Err e => Raise e s
    end.

Definition state_of {A : Type} (o : outcome A) : quran_mgr :=
  match o with
  | Return _ s => s
  | Raise _ s => s
  end.

(** [self.cursor.execute(sql)] then [self.cursor.fetchall()]; without
    [load_quran] the cursor is [None]. *)
Definition execute_fetchall (sql : string) : M resultset :=
  fun s =>
    match cursor s with
    | None => Raise AttributeError s
    | Some c =>
        let (c', r) := cursor_execute c sql [] in
        lift r (set_cursor (Some c') s)
    end.

(** *** get_text *)

(** The opening invocation, the 38 code points of the literal in
    [get_text] before its final blank. *)
Definition basmala : pystr :=
  [ 0x628; 0x650; 0x633; 0x652; 0x645; 0x650; 0x20;
    0x627; 0x644; 0x644; 0x651; 0x64e; 0x647; 0x650; 0x20;
    0x627; 0x644; 0x631; 0x651; 0x64e; 0x62d; 0x652; 0x645; 0x64e; 0x670;
    0x646; 0x650; 0x20;
    0x627; 0x644; 0x631; 0x651; 0x64e; 0x62d; 0x650; 0x64a; 0x645; 0x650 ]%N.

(** [f"{ayah[2]} {ayah[3]}\n|\n"] *)
Definition start_point_text (ayah : row) : pystr :=
  r_sura_name ayah ++ [space] ++ of_string (str_Z (r_sura_number ayah))
    ++ [newline; 124%N; newline].

(** What is appended to a verse after its text: the number in
    parentheses when [show_ayah_number], then the separator. *)
Definition ayah_suffix (show line : bool) (ayah : row) : pystr :=
  (if show
   then of_string (" (" ++ str_Z (r_numberInSurah ayah) ++ ")")
   else [])
  ++ (if line then [newline] else [space]).

(** One pass of the loop body up to [text += ayah_text]: the text emitted
    for one verse. *)
Definition emit_ayah (show line : bool) (ayah : row) : pystr :=
  let ayah_text := r_text ayah in
  let ayah_number := r_numberInSurah ayah in
  let ayah_text :=
    if ayah_number =? 1 then
      let ayah_text := start_point_text ayah ++ ayah_text in
      if negb (r_sura_number ayah =? 1)
      then replace (basmala ++ [space]) (basmala ++ [newline]) ayah_text
      else ayah_text
    else ayah_text in
  let ayah_text :=
    if show
    then ayah_text ++ of_string (" (" ++ str_Z ayah_number ++ ")")
    else ayah_text in
  if line then ayah_text ++ [newline] else ayah_text ++ [space].

(** The [for] loop over [data_list], with its three accumulators. *)
Fixpoint get_text_loop (show line : bool) (data : list row)
    (text : pystr) (current_position : Z) (ayah_data : AyahData.t)
  : pystr * Z * AyahData.t :=
  match data with
  | [] => (text, current_position, ayah_data)
  | ayah :: rest =>
      let ayah_text := emit_ayah show line ayah in
      let text := text ++ ayah_text in
      let first_position := current_position in
      let current_position :=
        current_position + Z.of_nat (List.length ayah_text) in
      let last_position := current_position - 1 in
      get_text_loop show line rest text current_position
        (AyahData.insert ayah_data (r_number ayah)
           first_position last_position)
  end.

Definition get_text : M pystr :=
  fun s =>
    match data_list s with
    | [] => Return [] s
    | _ :: _ =>
        let '(text, _, ayah_data) :=
          get_text_loop (show_ayah_number s) (aya_to_line s) (data_list s)
            [] 0 AyahData.empty in
        let text := strip newline text in
        Return text (set_ayah_data (Some ayah_data) (set_text text s))
    end.

(** *** Category selectors *)

(** [self.current_pos = self.max_pos if self.current_pos > self.max_pos
    else self.current_pos] *)
Definition clamp_current_pos (s : quran_mgr) : quran_mgr :=
  set_current_pos
    (if current_pos s >? max_pos s then max_pos s else current_pos s) s.

Definition get_surah (surah_number : Z) : M pystr :=
  modify (set_current_pos surah_number) ;;
  modify (set_max_pos 114) ;;
  modify (set_type 1) ;;
  modify clamp_current_pos ;;
  result <- execute_fetchall
    ("SELECT * FROM quran WHERE sura_number = " ++ str_Z surah_number) ;;
  rows <- lift (full_rows result) ;;
  modify (set_data_list rows) ;;
  get_text.

Definition get_hizb (hizb_number : Z) : M pystr :=
  modify (set_current_pos hizb_number) ;;
  modify (set_max_pos 60) ;;
  modify (set_type 3) ;;
  modify clamp_current_pos ;;
  result <- execute_fetchall
    ("SELECT * FROM quran WHERE hizb = " ++ str_Z hizb_number) ;;
  rows <- lift (full_rows result) ;;
  modify (set_data_list rows) ;;
  get_text.

Definition get_juzz (juzz_number : Z) : M pystr :=
  modify (set_current_pos juzz_number) ;;
  modify (set_max_pos 30) ;;
  modify (set_type 4) ;;
  modify clamp_current_pos ;;
  result <- execute_fetchall
    ("SELECT * FROM quran WHERE juz = " ++ str_Z juzz_number) ;;
  rows <- lift (full_rows result) ;;
  modify (set_data_list rows) ;;
  get_text.

Definition get_quarter (quarter_number : Z) : M pystr :=
  modify (set_current_pos quarter_number) ;;
  modify (set_max_pos 240) ;;
  modify (set_type 2) ;;
  modify clamp_current_pos ;;
  result <- execute_fetchall
    ("SELECT * FROM quran WHERE hizbQuarter = " ++ str_Z quarter_number) ;;
  rows <- lift (full_rows result) ;;
  modify (set_data_list rows) ;;
  get_text.

Definition get_page (page_number : Z) : M pystr :=
  modify (set_current_pos page_number) ;;
  modify (set_max_pos 604) ;;
  modify (set_type 0) ;;
  modify clamp_current_pos ;;
  result <- execute_fetchall
    ("SELECT * FROM quran WHERE page = " ++ str_Z page_number) ;;
  rows <- lift (full_rows result) ;;
  modify (set_data_list rows) ;;
  get_text.

(** *** get_range *)

(** The block under [#check from_surah real number]: the new value of
    [from_ayah]. *)
Definition check_from_surah (from_surah from_ayah : pyval) : M pyval :=
  if py_int from_surah >=? 1 then
    result <- execute_fetchall
      ("select number from quran WHERE sura_number = " ++ py_str from_surah) ;;
    if py_int from_ayah <? 1 then ret (PyInt 1)
    else if py_int from_ayah >? len_result result
    then ret (PyInt (len_result result))
    else
      first <- lift (first_int result) ;;
      ret (PyInt (first + (py_int from_ayah - 1)))
  else ret from_ayah.

(** The block under [#check to_surah real number]: the new value of
    [to_ayah]. *)
Definition check_to_surah (to_surah to_ayah : pyval) : M pyval :=
  if py_int to_surah >=? 1 then
    result <- execute_fetchall
      ("select number from quran WHERE sura_number = " ++ py_str to_surah) ;;
    if py_int to_ayah <? 1 then ret (PyInt (len_result result))
    else if py_int to_ayah >? len_result result
    then ret (PyInt (len_result result))
    else
      first <- lift (first_int result) ;;
      ret (PyInt (first + (py_int to_ayah - 1)))
  else ret to_ayah.

(** The statement chosen by the final [if]/[elif]/[else]. *)
Definition range_statement (from_ayah to_ayah : pyval) : string :=
  if truthy to_ayah then
    let from_ayah := if is_False from_ayah then PyInt 1 else from_ayah in
    "SELECT * FROM quran WHERE number BETWEEN " ++ py_str from_ayah
      ++ " AND " ++ py_str to_ayah
  else if truthy from_ayah && is_False to_ayah then
    "SELECT * FROM quran WHERE  number >= " ++ py_str from_ayah
  else
    "SELECT * FROM quran WHERE number > 1'".

Definition get_range (from_surah from_ayah to_surah to_ayah : pyval)
  : M pystr :=
  modify (set_current_pos (-1)) ;;
  modify (set_max_pos (-1)) ;;
  modify (set_type 5) ;;
  from_ayah <- check_from_surah from_surah from_ayah ;;
  to_ayah <- check_to_surah to_surah to_ayah ;;
  result <- execute_fetchall (range_statement from_ayah to_ayah) ;;
  rows <- lift (full_rows result) ;;
  modify (set_data_list rows) ;;
  get_text.

(** *** next, back, goto *)

(** The [if self.type == 0: ... else: ...] chain that ends the three
    methods. *)
Definition get_by_type : M pystr :=
  fun s =>
    (if type s =? 0 then get_page (current_pos s)
     else if type s =? 1 then get_surah (current_pos s)
     else if type s =? 2 then get_quarter (current_pos s)
     else if type s =? 3 then get_hizb (current_pos s)
     else get_juzz (current_pos s)) s.

Definition next : M pystr :=
  fun s =>
    if current_pos s >=? max_pos s then Return [] s
    else (modify (fun s => set_current_pos (current_pos s + 1) s) ;;
          get_by_type) s.

Definition back : M pystr :=
  fun s =>
    if current_pos s <=? 1 then Return [] s
    else (modify (fun s => set_current_pos (current_pos s - 1) s) ;;
          get_by_type) s.

Definition goto (goto : Z) : M pystr :=
  fun s =>
    if goto >? max_pos s then Return [] s
    else (modify (set_current_pos goto) ;; get_by_type) s.

(* ================================================================= *)
(** ** get_by_ayah_number

    The look-up by verse number sends two statements of other shapes than
    the selectors: a column list, [DISTINCT], [LIMIT], a scalar subquery in
    parentheses, and the verse number as a bound parameter.  The cursor
    model is extended to these shapes: the text is cut at parentheses and
    commas, the pieces go through [tokenize], and a second recognizer
    reads the result.  It can also raise two exceptions the methods above
    never raise. *)

Inductive xtoken :=
| XTok (t : token)
| XLParen | XRParen | XComma.

Definition punctuation (c : ascii) : option xtoken :=
  match c with
  | "(" => Some XLParen
  | ")" => Some XRParen
  | "," => Some XComma
  | _ => None
  end%char.

Fixpoint xtokenize_from (piece : string) (s : string)
  : option (list xtoken) :=
  match s with
  | EmptyString => option_map (map XTok) (tokenize piece)
  | String ch s' =>
      match punctuation ch with
      | Some p =>
          match tokenize piece, xtokenize_from EmptyString s' with
          | Some ts, Some xs => Some (map XTok ts ++ p :: xs)
          | _, _ => None
          end
      | None => xtokenize_from (piece ++ String ch EmptyString) s'
      end
  end.

Definition xtokenize (s : string) : option (list xtoken) :=
  xtokenize_from EmptyString s.

(** Values of a result tuple. *)
Inductive sqlvalue :=
| SqlNull
| SqlInt (z : Z)
| SqlText (s : pystr).

Inductive xcolumn :=
| IntColumn (c : column)
| TextColumn
| SuraNameColumn.

Definition xcolumn_of_name (s : string) : option xcolumn :=
  match column_of_name s with
  | Some c => Some (IntColumn c)
  | None =>
      if (s =? "text")%string then Some TextColumn
      else if (s =? "sura_name")%string then Some SuraNameColumn
      else None
  end.

Definition xcolumn_value (c : xcolumn) (r : row) : sqlvalue :=
  match c with
  | IntColumn k => SqlInt (column_value k r)
  | TextColumn => SqlText (r_text r)
  | SuraNameColumn => SqlText (r_sura_name r)
  end.

Inductive xprojection :=
| XStar
| XColumns (cs : list xcolumn).

(** [SELECT [DISTINCT] proj FROM quran WHERE col = rhs [LIMIT n]], with
    the right-hand side left open: a value in a subquery, a value or a
    subquery at top level. *)
Record select_core (R : Type) := mk_core {
  core_distinct : bool;
  core_proj : xprojection;
  core_column : column;
  core_rhs : R;
  core_limit : option Z
}.
Arguments mk_core {R} _ _ _ _ _.
Arguments core_distinct {R} _.
Arguments core_proj {R} _.
Arguments core_column {R} _.
Arguments core_rhs {R} _.
Arguments core_limit {R} _.

Definition is_xkw (kw : string) (t : xtoken) : bool :=
  match t with
  | XTok k => is_kw kw k
  | _ => false
  end.

Definition parse_xvalue (ts : list xtoken) (ps : list Z)
  : option (sqlvalue * list xtoken * list Z) :=
  match ts with
  | XTok (TNum n) :: r => Some (SqlInt n, r, ps)
  | XTok TMinus :: XTok (TNum n) :: r => Some (SqlInt (- n), r, ps)
  | XTok TQMark :: r =>
      match ps with
      | p :: ps' => Some (SqlInt p, r, ps')
      | [] => None
      end
  | XTok (TId s) :: r =>
      if (s =? "true")%string then Some (SqlInt 1, r, ps)
      else if (s =? "false")%string then Some (SqlInt 0, r, ps)
      else if (s =? "null")%string then Some (SqlNull, r, ps)
      else None
  | _ => None
  end.

Fixpoint parse_xcolumns (ts : list xtoken)
  : option (list xcolumn * list xtoken) :=
  match ts with
  | XTok (TId name) :: r =>
      match xcolumn_of_name name with
      | None => None
      | Some c =>
          match r with
          | XComma :: r' =>
              match parse_xcolumns r' with
              | Some (cs, r'') => Some (c :: cs, r'')
              | None => None
              end
          | _ => Some ([c], r)
          end
      end
  | _ => None
  end.

Definition parse_xprojection (ts : list xtoken)
  : option (xprojection * list xtoken) :=
  match ts with
  | XTok TStar :: r => Some (XStar, r)
  | _ =>
      match parse_xcolumns ts with
      | Some (cs, r) => Some (XColumns cs, r)
      | None => None
      end
  end.

Definition parse_xlimit (ts : list xtoken)
  : option (option Z * list xtoken) :=
  match ts with
  | t :: XTok (TNum n) :: r =>
      if is_xkw "limit" t then Some (Some n, r) else Some (None, ts)
  | _ => Some (None, ts)
  end.

Definition parse_core {R : Type}
    (parse_rhs : list xtoken -> list Z -> option (R * list xtoken * list Z))
    (ts : list xtoken) (ps : list Z)
  : option (select_core R * list xtoken * list Z) :=
  match ts with
  | k1 :: r1 =>
      if is_xkw "select" k1 then
        let (distinct, r2) :=
          match r1 with
          | t :: r => if is_xkw "distinct" t then (true, r) else (false, r1)
          | [] => (false, r1)
          end in
        match parse_xprojection r2 with
        | Some (proj, k2 :: k3 :: k4 :: XTok (TId name) :: XTok TEq :: r3) =>
            if is_xkw "from" k2 && is_xkw "quran" k3 && is_xkw "where" k4
            then
              match column_of_name name, parse_rhs r3 ps with
              | Some col, Some (rhs, r4, ps') =>
                  match parse_xlimit r4 with
                  | Some (limit, r5) =>
                      (* DISTINCT over full rows is not among the shapes *)
                      match distinct, proj with
                      | true, XStar => None
                      | _, _ =>
                          Some (mk_core distinct proj col rhs limit, r5, ps')
                      end
                  | None => None
                  end
              | _, _ => None
              end
            else None
        | _ => None
        end
      else None
  | [] => None
  end.

Definition parse_xrhs (ts : list xtoken) (ps : list Z)
  : option ((sqlvalue + select_core sqlvalue) * list xtoken * list Z) :=
  match ts with
  | XLParen :: r =>
      match parse_core parse_xvalue r ps with
      | Some (q, XRParen :: r', ps') =>
          (* a subquery used as a value selects one column *)
          match core_proj q with
          | XColumns [_] => Some (inr q, r', ps')
          | _ => None
          end
      | _ => None
      end
  | _ =>
      match parse_xvalue ts ps with
      | Some (v, r, ps') => Some (inl v, r, ps')
      | None => None
      end
  end.

(** The whole statement; every token and every parameter must be used. *)
Definition parse_xselect (ts : list xtoken) (ps : list Z)
  : option (select_core (sqlvalue + select_core sqlvalue)) :=
  match parse_core parse_xrhs ts ps with
  | Some (q, [], []) => Some q
  | _ => None
  end.

(** *** What the statements select *)

Definition sqlvalue_eqb (a b : sqlvalue) : bool :=
  match a, b with
  | SqlNull, SqlNull => true
  | SqlInt x, SqlInt y => x =? y
  | SqlText x, SqlText y =>
      (List.length x =? List.length y)%nat && starts_with x y
  | _, _ => false
  end.

Fixpoint tuple_eqb (a b : list sqlvalue) : bool :=
  match a, b with
  | [], [] => true
  | x :: a', y :: b' => sqlvalue_eqb x y && tuple_eqb a' b'
  | _, _ => false
  end.

(** [DISTINCT]: a tuple is kept the first time it comes. *)
Fixpoint distinct_tuples (l : list (list sqlvalue)) : list (list sqlvalue) :=
  match l with
  | [] => []
  | t :: rest =>
      t :: filter (fun u => negb (tuple_eqb t u)) (distinct_tuples rest)
  end.

(** [LIMIT n]; a negative [n] is no limit. *)
Definition limited {A : Type} (limit : option Z) (l : list A) : list A :=
  match limit with
  | Some n => if n <? 0 then l else firstn (Z.to_nat n) l
  | None => l
  end.

(** [col = v] on an integer column: never true for [NULL] or a text. *)
Definition column_equals (col : column) (v : sqlvalue) (r : row) : bool :=
  match v with
  | SqlInt z => column_value col r =? z
  | _ => false
  end.

Inductive xresultset :=
| XRows (rs : list row)
| XTuples (ts : list (list sqlvalue)).

Definition run_core {R : Type} (value_of : R -> sqlvalue)
    (q : select_core R) (t : list row) : xresultset :=
  let rs := filter (column_equals (core_column q) (value_of (core_rhs q))) t in
  match core_proj q with
  | XStar => XRows (limited (core_limit q) rs)
  | XColumns cs =>
      let tuples := map (fun r => map (fun c => xcolumn_value c r) cs) rs in
      XTuples (limited (core_limit q)
                 (if core_distinct q then distinct_tuples tuples else tuples))
  end.

(** The value of a scalar subquery: column 0 of its first tuple, [NULL]
    when it selects nothing. *)
Definition scalar (q : select_core sqlvalue) (t : list row) : sqlvalue :=
  match run_core (fun v => v) q t with
  | XTuples ((v :: _) :: _) => v
  | _ => SqlNull
  end.

Definition run_xselect (q : select_core (sqlvalue + select_core sqlvalue))
    (t : list row) : xresultset :=
  run_core (fun rhs => match rhs with
                       | inl v => v
                       | inr sub => scalar sub t
                       end) q t.

(** [cursor.execute(sql, params)] for these statements, with integer
    parameters. *)
Definition cursor_execute_x (c : sqlite_cursor) (sql : string) (ps : list Z)
  : sqlite_cursor * result xresultset :=
  let c' := mk_cursor (table c) (executed c ++ [(sql, map PyInt ps)]) in
  match xtokenize sql with
  | None => (c', Err OperationalError)
  | Some ts =>
      match parse_xselect ts ps with
      | None => (c', Err OperationalError)
      | Some q => (c', Ok (run_xselect q (table c)))
      end
  end.

(** [cursor.fetchone()]; of a full row, the columns it carries by
    position. *)
Definition fetchone (r : xresultset) : option (list sqlvalue) :=
  match r with
  | XTuples (t :: _) => Some t
  | XTuples [] => None
  | XRows (r :: _) =>
      Some [SqlText (r_text r); SqlInt (r_number r); SqlText (r_sura_name r);
            SqlInt (r_sura_number r); SqlInt (r_numberInSurah r)]
  | XRows [] => None
  end.

(** The list comprehension over [rows] that reads [row[0]] to [row[10]]:
    a tuple of a column list is too short for it. *)
Definition full_xrows (r : xresultset) : result (list row) :=
  match r with
  | XRows rs => Ok rs
  | XTuples [] => Ok []
  | XTuples (_ :: _) => Err IndexError
  end.

(** *** The method *)

Inductive exception :=
| PyExn (e : exn)
| TypeError
| AssertionError.

Inductive xoutcome (A : Type) :=
| XReturn (a : A) (s : quran_mgr)
| XRaise (e : exception) (s : quran_mgr).
Arguments XReturn {A} a s.
Arguments XRaise {A} e s.

Definition xstate_of {A : Type} (o : xoutcome A) : quran_mgr :=
  match o with
  | XReturn _ s => s
  | XRaise _ s => s
  end.

(** The dictionary [get_by_ayah_number] returns. *)
Record ayah_lookup := mk_ayah_lookup {
  ayah_text : pystr;
  full_text : pystr
}.

Definition LF : string := String (ascii_of_nat 10) EmptyString.

(** The [match self.type] block: the column of the category, [None] for
    any other tag. *)
Definition col_name_of (t : Z) : option string :=
  if t =? 0 then Some "page"%string
  else if t =? 1 then Some "sura_number"%string
  else if t =? 2 then Some "hizbQuarter"%string
  else if t =? 3 then Some "hizb"%string
  else if t =? 4 then Some "juz"%string
  else None.

(** The triple-quoted statement, line by line. *)
Definition unit_of_ayah_statement (col_name : string) : string :=
  LF ++ "        SELECT * FROM quran WHERE " ++ col_name ++ " = (" ++ LF
     ++ "        SELECT DISTINCT " ++ col_name
     ++ " FROM quran WHERE number = ? LIMIT 1" ++ LF
     ++ "    )" ++ LF.

Definition ayah_statement (col_name : string) : string :=
  "SELECT DISTINCT " ++ col_name ++ ", text FROM quran WHERE number = ?".

Definition get_by_ayah_number (ayah_number : Z) (s : quran_mgr)
  : xoutcome ayah_lookup :=
  match col_name_of (type s) with
  | None => XRaise AssertionError s
  | Some col_name =>
      match cursor s with
      | None => XRaise (PyExn AttributeError) s
      | Some c =>
          let (c1, fetched) :=
            cursor_execute_x c (unit_of_ayah_statement col_name)
              [ayah_number] in
          let s1 := set_cursor (Some c1) s in
          match fetched with
          | Err e => XRaise (PyExn e) s1
          | Ok rows =>
              match full_xrows rows with
              | Err e => XRaise (PyExn e) s1
              | Ok data =>
                  let s2 := set_data_list data s1 in
                  let (c2, fetched2) :=
                    cursor_execute_x c1 (ayah_statement col_name)
                      [ayah_number] in
                  let s3 := set_cursor (Some c2) s2 in
                  match fetched2 with
                  | Err e => XRaise (PyExn e) s3
                  | Ok ayah_rows =>
                      match fetchone ayah_rows with
                      | Some (SqlInt pos :: SqlText txt :: _) =>
                          let s4 := set_current_pos pos s3 in
                          match QuranConst.get_max (type s4) with
                          | Err e => XRaise (PyExn e) s4
                          | Ok m =>
                              match get_text (set_max_pos m s4) with
                              | Return full s5 =>
                                  XReturn (mk_ayah_lookup txt full) s5
                              | Raise e s5 => XRaise (PyExn e) s5
                              end
                          end
                      | _ => XRaise TypeError s3
                      end
                  end
              end
          end
      end
  end.

(* ================================================================= *)
(** ** A small table for concrete runs

    The seven verses of chapter 1, the first three of chapter 2 and the
    first two of chapter 114, with their numbering and coordinates; the
    verse texts are shortened to Latin placeholders, except for the opening
    invocation. *)

Definition sample_db : list row :=
  [ mk_row basmala 1 (of_string "Al-Fatiha") 1 1 1 1 1 1;
    mk_row (of_string "al-hamdu") 2 (of_string "Al-Fatiha") 1 2 1 1 1 1;
    mk_row (of_string "ar-rahman") 3 (of_string "Al-Fatiha") 1 3 1 1 1 1;
    mk_row (of_string "maliki") 4 (of_string "Al-Fatiha") 1 4 1 1 1 1;
    mk_row (of_string "iyyaka") 5 (of_string "Al-Fatiha") 1 5 1 1 1 1;
    mk_row (of_string "ihdina") 6 (of_string "Al-Fatiha") 1 6 1 1 1 1;
    mk_row (of_string "sirata") 7 (of_string "Al-Fatiha") 1 7 1 1 1 1;
    mk_row (basmala ++ [space] ++ of_string "alif lam mim") 8
           (of_string "Al-Baqara") 2 1 1 1 2 1;
    mk_row (of_string "dhalika") 9 (of_string "Al-Baqara") 2 2 1 1 2 1;
    mk_row (of_string "alladhina") 10 (of_string "Al-Baqara") 2 3 1 1 2 1;
    mk_row (basmala ++ [space] ++ of_string "qul") 6231
           (of_string "An-Nas") 114 1 30 60 604 240;
    mk_row (of_string "maliki n-nas") 6232
           (of_string "An-Nas") 114 2 30 60 604 240 ].

Definition sample_mgr : quran_mgr := load_quran sample_db init.

(* ================================================================= *)
(** ** Vocabulary of the properties *)

(** A sequence of cursor operations, run one after the other; the texts
    returned are collected. *)
Inductive nav_op :=
| Next
| Back
| Goto (i : Z).

Definition run_op (op : nav_op) : M pystr :=
  match op with
  | Next => next
  | Back => back
  | Goto i => goto i
  end.

Fixpoint run_ops (ops : list nav_op) : M (list pystr) :=
  match ops with
  | [] => ret []
  | op :: rest =>
      t <- run_op op ;;
      ts <- run_ops rest ;;
      ret (t :: ts)
  end.

(** The state a range query leaves behind: both cursor fields at the
    sentinel -1 and the type tag 5. *)
Definition range_state (s : quran_mgr) : Prop :=
  current_pos s = -1 /\ max_pos s = -1 /\ type s = 5.

(** A [goto] argument that the sentinel bound stops. *)
Definition stopped_by_sentinel (op : nav_op) : Prop :=
  match op with
  | Goto i => -1 < i
  | _ => True
  end.

(** Entries of the position index. *)
Definition verse_of (e : Z * Z * Z) : Z := fst (fst e).
Definition span_start (e : Z * Z * Z) : Z := snd (fst e).
Definition span_end (e : Z * Z * Z) : Z := snd e.


(** Spans laid end to end from offset [start]: each begins where the
    previous one stopped and holds at least one character. *)
Fixpoint contiguous_from (start : Z) (idx : AyahData.t) : Prop :=
  match idx with
  | [] => True
  | e :: rest =>
      span_start e = start /\ span_start e <= span_end e /\
      contiguous_from (span_end e + 1) rest
  end.

(** The index the loop builds, written as a function of the verse list:
    one entry per verse, each as long as the text emitted for it. *)
Fixpoint spans_from (show line : bool) (start : Z) (data : list row)
  : AyahData.t :=
  match data with
  | [] => []
  | ayah :: rest =>
      let n := Z.of_nat (List.length (emit_ayah show line ayah)) in
      (r_number ayah, start, start + n - 1)
        :: spans_from show line (start + n) rest
  end.

(** The untrimmed text of the loop: the emitted verses, concatenated. *)
Definition emitted (show line : bool) (data : list row) : pystr :=
  List.concat (map (emit_ayah show line) data).

(** The pattern and the replacement of the [replace] call in
    [get_text]. *)
Definition break_after_basmala (s : pystr) : pystr :=
  replace (basmala ++ [space]) (basmala ++ [newline]) s.

(** The global numbers of a chapter's verses, in table order: what
    [select number ... WHERE sura_number = n] returns. *)
Definition numbers_of_sura (t : list row) (n : Z) : list Z :=
  map r_number (filter (fun r => r_sura_number r =? n) t).

(** The tokens of [str(n)]. *)
Definition value_tokens (n : Z) : list token :=
  match n with
  | Zneg p => [TMinus; TNum (Zpos p)]
  | _ => [TNum n]
  end.

(** The cursor after one more statement without parameters. *)
Definition logged (sql : string) (c : sqlite_cursor) : sqlite_cursor :=
  mk_cursor (table c) (executed c ++ [(sql, [])]).

(** The three fields that [next], [back] and [goto] test. *)
Definition nav_fields (s : quran_mgr) : Z * Z * Z :=
  (current_pos s, max_pos s, type s).

(** A computation that leaves them alone, whether it returns or raises. *)
Definition keeps_nav {A : Type} (m : M A) : Prop :=
  forall s, nav_fields (state_of (m s)) = nav_fields s.

Definition at_first_surah : quran_mgr := state_of (get_surah 1 sample_mgr).
Definition in_range_state : quran_mgr :=
  state_of (get_range (PyInt 2) (PyInt 1) (PyInt 2) (PyInt 3) sample_mgr).

(** What a call returned, if it returned, and the statements its cursor
    has been sent so far. *)
Definition returned {A : Type} (o : outcome A) : option A :=
  match o with
  | Return a _ => Some a
  | Raise _ _ => None
  end.

Definition statements (s : quran_mgr) : list (string * list pyval) :=
  match cursor s with
  | Some c => executed c
  | None => []
  end.

(** No occurrence of [p] in [h ++ t] starts inside [h]. *)
Definition no_start (p h t : pystr) : Prop :=
  forall h1 h2, h = h1 ++ h2 -> h2 <> [] -> starts_with p (h2 ++ t) = false.

(** The characters the invocation is written with: the blank and Arabic
    letters and marks, none of them a digit, a sign, a bar or a line
    break. *)
Definition invocation_char (c : char) : bool :=
  ((c =? 32) || (128 <=? c))%N.

(** The first verses of chapters 1 and 2 of the sample table. *)
Definition first_of_fatiha : row :=
  mk_row basmala 1 (of_string "Al-Fatiha") 1 1 1 1 1 1.
Definition first_of_baqara : row :=
  mk_row (basmala ++ [space] ++ of_string "alif lam mim") 8
         (of_string "Al-Baqara") 2 1 1 1 2 1.

(** The statement that looks a chapter up in [get_range]. *)
Definition chapter_lookup (surah : pyval) : string :=
  "select number from quran WHERE sura_number = " ++ py_str surah.


(** The category a type tag stands for in the chain that ends [next],
    [back] and [goto]: the tags 0 to 3 name their own category, every
    other tag runs the last branch. *)
Definition dispatch_tag (t : Z) : Z :=
  if (t =? 0) || (t =? 1) || (t =? 2) || (t =? 3) then t else 4.

(** The coordinate column, the maximum and the statement prefix of a
    category. *)
Definition coordinate (t : Z) (r : row) : Z :=
  if t =? 0 then r_page r
  else if t =? 1 then r_sura_number r
  else if t =? 2 then r_hizbQuarter r
  else if t =? 3 then r_hizb r
  else r_juz r.

Definition category_max (t : Z) : Z :=
  if t =? 0 then 604
  else if t =? 1 then 114
  else if t =? 2 then 240
  else if t =? 3 then 60
  else 30.

Definition category_statement (t : Z) (i : Z) : string :=
  (if t =? 0 then "SELECT * FROM quran WHERE page = "
   else if t =? 1 then "SELECT * FROM quran WHERE sura_number = "
   else if t =? 2 then "SELECT * FROM quran WHERE hizbQuarter = "
   else if t =? 3 then "SELECT * FROM quran WHERE hizb = "
   else "SELECT * FROM quran WHERE juz = ") ++ str_Z i.

(** The rows of unit [i] of category [t], in table order. *)
Definition unit_rows (t i : Z) (tbl : list row) : list row :=
  filter (fun r => coordinate t r =? i) tbl.

(** What [get_text] returns for a verse list. *)
Definition rendering (show line : bool) (rows : list row) : pystr :=
  match rows with
  | [] => []
  | _ :: _ => strip newline (emitted show line rows)
  end.

(** The five selectors, by category tag. *)
Definition selector (t : Z) : Z -> M pystr :=
  if t =? 0 then get_page
  else if t =? 1 then get_surah
  else if t =? 2 then get_quarter
  else if t =? 3 then get_hizb
  else get_juzz.

(** Everything of a state but the statements its cursor has logged. *)
Definition view (s : quran_mgr)
  : bool * bool * (Z * Z * Z) * list row * option (list row)
    * pystr * option AyahData.t :=
  (show_ayah_number s, aya_to_line s, nav_fields s, data_list s,
   option_map table (cursor s), text s, ayah_data s).

(** What a call produced: a value or an exception. *)
Definition result_of {A : Type} (o : outcome A) : result A :=
  match o with
  | Return a _ => Ok a
  | Raise e _ => Err e
  end.

(** An offset lies in a span. *)
Definition in_span (o : Z) (e : Z * Z * Z) : Prop :=
  span_start e <= o <= span_end e.

(** The state a selector renders from: its three assignments, the
    clamping, the logged statement and the rows of the unit. *)
Definition selected (t i : Z) (c : sqlite_cursor) (s : quran_mgr)
  : quran_mgr :=
  set_data_list (unit_rows (dispatch_tag t) i (table c))
    (set_cursor (Some (logged (category_statement (dispatch_tag t) i) c))
       (clamp_current_pos
          (set_type (dispatch_tag t)
             (set_max_pos (category_max (dispatch_tag t))
                (set_current_pos i s))))).

(** The sample navigator as the main window sets it up, with one verse
    per line, and its state on chapter 1. *)
Definition sample_line_mgr : quran_mgr :=
  mk_mgr true true 1 604 0 [] (Some (mk_cursor sample_db [])) [] None.
Definition line_at_first_surah : quran_mgr :=
  state_of (get_surah 1 sample_line_mgr).

(** The lower bound a raw [from_ayah] stands for when [to_ayah] is
    given: [False] means the first verse. *)
Definition lower_bound (from_ayah : pyval) : Z :=
  if is_False from_ayah then 1 else py_int from_ayah.


(** The first verse of a table with a given number, as the look-up by
    verse number finds it. *)
Definition verse_numbered (n : Z) (tbl : list row) : option row :=
  find (fun r => r_number r =? n) tbl.

(** A cursor after a statement with one bound integer. *)
Definition logged_with (sql : string) (n : Z) (c : sqlite_cursor)
  : sqlite_cursor :=
  mk_cursor (table c) (executed c ++ [(sql, [PyInt n])]).

(** What a look-up ended with. *)
Definition xresult_of {A : Type} (o : xoutcome A) : A + exception :=
  match o with
  | XReturn a _ => inl a
  | XRaise e _ => inr e
  end.

(** The sample navigator with a category tag, as [go_to_bookmark] sets it
    before the look-up. *)
Definition sample_tagged (t : Z) : quran_mgr := set_type t sample_mgr.


(** The state the look-up renders from when verse [n] is row [r0]: the
    rows of the unit that holds it, the cursor after the two statements,
    the coordinate of [r0] and the maximum of the category. *)
Definition looked_up (name : string) (n : Z) (r0 : row)
    (c : sqlite_cursor) (s : quran_mgr) : quran_mgr :=
  set_max_pos (category_max (type s))
    (set_current_pos (coordinate (type s) r0)
       (set_cursor
          (Some (logged_with (ayah_statement name) n
                   (logged_with (unit_of_ayah_statement name) n c)))
          (set_data_list
             (unit_rows (type s) (coordinate (type s) r0) (table c))
             (set_cursor
                (Some (logged_with (unit_of_ayah_statement name) n c))
                s)))).

(** The state it raises from when no row has the number. *)
Definition looked_up_nothing (name : string) (n : Z)
    (c : sqlite_cursor) (s : quran_mgr) : quran_mgr :=
  set_cursor
    (Some (logged_with (ayah_statement name) n
             (logged_with (unit_of_ayah_statement name) n c)))
    (set_data_list []
       (set_cursor
          (Some (logged_with (unit_of_ayah_statement name) n c)) s)).

(** Verse 3 of the sample table. *)
Definition third_verse : row :=
  nth 2 sample_db (mk_row [] 0 [] 0 0 0 0 0 0).

(* ================================================================= *)
(** * Properties *)

(** ** QuranConst *)

Lemma py_index_out_of_range {A : Type} (t : list A) (i : Z) :
  i < - Z.of_nat (List.length t) \/ Z.of_nat (List.length t) <= i ->
  py_index t i = Err IndexError.
Proof.
  intros H. unfold py_index. cbv zeta.
  destruct (Z.ltb_spec i 0) as [Hneg | Hpos].
  - replace (i <? 0) with true by (symmetry; apply Z.ltb_lt; lia).
    cbv iota.
    destruct H as [H | H]; [| lia].
    replace (i + Z.of_nat (List.length t) <? 0) with true
      by (symmetry; apply Z.ltb_lt; lia).
    reflexivity.
  - replace (i <? 0) with false by (symmetry; apply Z.ltb_ge; lia).
    cbv iota.
    destruct H as [H | H]; [lia |].
    replace (Z.of_nat (List.length t) <=? i) with true
      by (symmetry; apply Z.leb_le; lia).
    reflexivity.
Qed.

Lemma py_index_negative {A : Type} (t : list A) (i : Z) :
  - Z.of_nat (List.length t) <= i < 0 ->
  py_index t i = py_index t (i + Z.of_nat (List.length t)).
Proof.
  intros H.
  assert (E1 : (i <? 0) = true) by (apply Z.ltb_lt; lia).
  assert (E2 : (i + Z.of_nat (List.length t) <? 0) = false)
    by (apply Z.ltb_ge; lia).
  unfold py_index. cbv zeta.
  rewrite E1, E2. cbv iota. rewrite E2. reflexivity.
Qed.

(** C8, as the code has it.  [get_max] and [get_category_label] return
    604, 114, 240, 60, 30 and the five labels on 0..4, and raise
    [IndexError] for every category number below -5 or above 4.  The
    numbers -5..-1 are not rejected: tuple indexing counts them from the
    end, so [n] answers as [n + 5] does. *)
Theorem get_max_and_label_domain :
  map QuranConst.get_max [0; 1; 2; 3; 4]
    = map Ok [604; 114; 240; 60; 30] /\
  map QuranConst.get_category_label [0; 1; 2; 3; 4]
    = map Ok QuranConst._category_labels /\
  (forall n, n < -5 \/ 4 < n ->
     QuranConst.get_max n = Err IndexError /\
     QuranConst.get_category_label n = Err IndexError) /\
  (forall n, -5 <= n <= -1 ->
     QuranConst.get_max n = QuranConst.get_max (n + 5) /\
     QuranConst.get_category_label n = QuranConst.get_category_label (n + 5)).
Proof.
  split; [reflexivity |]. split; [reflexivity |]. split.
  - intros n H. split; apply py_index_out_of_range; simpl; lia.
  - intros n H. split.
    + apply (py_index_negative QuranConst._max n). simpl. lia.
    + apply (py_index_negative QuranConst._category_labels n). simpl. lia.
Qed.

Lemma get_max_and_label_domain_witness :
  QuranConst.get_max 5 = Err IndexError /\
  QuranConst.get_category_label (-6) = Err IndexError /\
  QuranConst.get_max (-2) = QuranConst.get_max 3.
Proof.
  destruct get_max_and_label_domain as (_ & _ & Hout & Hneg).
  split; [apply (Hout 5); lia |].
  split; [apply (Hout (-6)); lia |].
  apply (Hneg (-2)); lia.
Defined.

(** C8 as stated fails at -1, which lies outside 0..4: the call returns
    the entry of the last category instead of being rejected. *)
Lemma get_max_accepts_minus_one :
  ~ (0 <= -1 <= 4) /\
  QuranConst.get_max (-1) = Ok 30 /\
  QuranConst.get_category_label (-1) = Ok [1580; 1586; 1569]%N.
Proof.
  split; [lia |]. split; reflexivity.
Qed.

(* ================================================================= *)
(** ** The cursor fields through the methods *)

Lemma keeps_nav_ret {A : Type} (a : A) : keeps_nav (ret a).
Proof. intros s. reflexivity. Qed.

Lemma keeps_nav_lift {A : Type} (r : result A) : keeps_nav (lift r).
Proof. intros s. destruct r; reflexivity. Qed.

Lemma keeps_nav_bind {A B : Type} (m : M A) (k : A -> M B) :
  keeps_nav m -> (forall a, keeps_nav (k a)) -> keeps_nav (bind m k).
Proof.
  intros Hm Hk s. unfold bind. specialize (Hm s).
  destruct (m s) as [a s' | e s']; simpl in *.
  - rewrite Hk. exact Hm.
  - exact Hm.
Qed.

Lemma keeps_nav_execute_fetchall (sql : string) :
  keeps_nav (execute_fetchall sql).
Proof.
  intros s. unfold execute_fetchall.
  destruct (cursor s) as [c |]; [| reflexivity].
  destruct (cursor_execute c sql []) as [c' r].
  rewrite keeps_nav_lift. reflexivity.
Qed.

Lemma keeps_nav_set_data_list (rows : list row) :
  keeps_nav (modify (set_data_list rows)).
Proof. intros s. reflexivity. Qed.

Lemma keeps_nav_get_text : keeps_nav get_text.
Proof.
  intros s. unfold get_text.
  destruct (data_list s) as [| a l]; [reflexivity |].
  destruct (get_text_loop _ _ _ _ _ _) as [[t p] d]. reflexivity.
Qed.

Create HintDb nav.

#[local] Hint Resolve keeps_nav_ret keeps_nav_lift keeps_nav_execute_fetchall
  keeps_nav_set_data_list keeps_nav_get_text : nav.

Ltac keeps_nav_steps :=
  repeat first
    [ apply keeps_nav_bind; [| intros ? ]
    | match goal with
      | |- keeps_nav (if ?b then _ else _) => destruct b
      end
    | solve [ auto with nav ] ].

Lemma bind_modify {B : Type} (f : quran_mgr -> quran_mgr) (k : unit -> M B)
    (s : quran_mgr) :
  bind (modify f) k s = k tt (f s).
Proof. reflexivity. Qed.

Lemma bind_ret {A B : Type} (a : A) (k : A -> M B) (s : quran_mgr) :
  bind (ret a) k s = k a s.
Proof. reflexivity. Qed.

(** After its assignments a selector only queries and renders. *)
Lemma keeps_nav_fetch_and_render (sql : string) :
  keeps_nav (result <- execute_fetchall sql ;;
             rows <- lift (full_rows result) ;;
             modify (set_data_list rows) ;;
             get_text).
Proof. keeps_nav_steps. Qed.

Lemma keeps_nav_check_from_surah (from_surah from_ayah : pyval) :
  keeps_nav (check_from_surah from_surah from_ayah).
Proof. unfold check_from_surah. keeps_nav_steps. Qed.

Lemma keeps_nav_check_to_surah (to_surah to_ayah : pyval) :
  keeps_nav (check_to_surah to_surah to_ayah).
Proof. unfold check_to_surah. keeps_nav_steps. Qed.


(** [get_range] ends in the range state on every path, also when one of
    its statements is refused. *)
Lemma get_range_sets_range_state
    (from_surah from_ayah to_surah to_ayah : pyval) (s : quran_mgr) :
  range_state (state_of (get_range from_surah from_ayah to_surah to_ayah s)).
Proof.
  assert (H : nav_fields
                (state_of (get_range from_surah from_ayah to_surah to_ayah s))
              = (-1, -1, 5)).
  { unfold get_range. rewrite !bind_modify.
    match goal with
    | |- nav_fields (state_of (?m ?s0)) = _ =>
        assert (K : keeps_nav m)
    end.
    { apply keeps_nav_bind; [apply keeps_nav_check_from_surah | intros ?].
      apply keeps_nav_bind; [apply keeps_nav_check_to_surah | intros ?].
      apply keeps_nav_fetch_and_render. }
    rewrite K. reflexivity. }
  unfold nav_fields in H. unfold range_state.
  inversion H. auto.
Qed.

(** ** next, back, goto at the bounds *)

Lemma next_at_max (s : quran_mgr) :
  current_pos s >= max_pos s -> next s = Return [] s.
Proof.
  intros H. unfold next.
  replace (current_pos s >=? max_pos s) with true
    by (symmetry; apply Z.geb_le; lia).
  reflexivity.
Qed.

Lemma back_at_first (s : quran_mgr) :
  current_pos s <= 1 -> back s = Return [] s.
Proof.
  intros H. unfold back.
  replace (current_pos s <=? 1) with true
    by (symmetry; apply Z.leb_le; lia).
  reflexivity.
Qed.

Lemma goto_above_max (s : quran_mgr) (i : Z) :
  i > max_pos s -> goto i s = Return [] s.
Proof.
  intros H. unfold goto.
  replace (i >? max_pos s) with true
    by (symmetry; apply Z.gtb_lt; lia).
  reflexivity.
Qed.




(** ** The range state *)

Lemma range_state_stops_op (r : quran_mgr) (op : nav_op) :
  range_state r -> stopped_by_sentinel op -> run_op op r = Return [] r.
Proof.
  intros (Hc & Hm & _) Hop.
  destruct op as [| | i]; simpl.
  - apply next_at_max. lia.
  - apply back_at_first. lia.
  - apply goto_above_max. simpl in Hop. lia.
Qed.

Lemma range_state_stops_ops (r : quran_mgr) (ops : list nav_op) :
  range_state r -> Forall stopped_by_sentinel ops ->
  run_ops ops r = Return (map (fun _ => []) ops) r.
Proof.
  intros Hr Hops. induction Hops as [| op ops Hop _ IH].
  - reflexivity.
  - simpl. unfold bind at 1. rewrite (range_state_stops_op r op Hr Hop).
    unfold bind at 1. rewrite IH. reflexivity.
Qed.

(** C9, as the code has it.  Whatever its arguments and whether it returns
    or raises, [get_range] leaves the range state (both cursor fields at
    -1, type 5); from there every sequence of [next()], [back()] and
    [goto(i)] with [i >= 0] returns the empty text at each step and ends
    in that same state: nothing is queried, rendered or stored.  A
    [goto(i)] with [i <= -1] is not covered: -1 is the bound [goto]
    compares with. *)
Theorem range_state_blocks_cursor_ops
    (from_surah from_ayah to_surah to_ayah : pyval) (s : quran_mgr)
    (ops : list nav_op) :
  Forall stopped_by_sentinel ops ->
  let r := state_of (get_range from_surah from_ayah to_surah to_ayah s) in
  range_state r /\
  run_ops ops r = Return (map (fun _ => []) ops) r.
Proof.
  intros Hops r.
  assert (Hr : range_state r) by apply get_range_sets_range_state.
  split; [exact Hr |].
  apply range_state_stops_ops; assumption.
Qed.

Lemma range_state_blocks_cursor_ops_witness :
  Forall stopped_by_sentinel [Next; Goto 3; Back; Goto 0] /\
  run_ops [Next; Goto 3; Back; Goto 0] in_range_state
    = Return [[]; []; []; []] in_range_state.
Proof.
  assert (H : Forall stopped_by_sentinel [Next; Goto 3; Back; Goto 0]).
  { repeat constructor; simpl; lia. }
  split; [exact H |].
  exact (proj2 (range_state_blocks_cursor_ops
                  (PyInt 2) (PyInt 1) (PyInt 2) (PyInt 3) sample_mgr
                  [Next; Goto 3; Back; Goto 0] H)).
Defined.

(** C9 as stated fails for [goto(-1)]: in the range state of the sample
    table it passes the bound test, falls through the type chain to
    [get_juzz], sends a statement and leaves the state of category 4. *)
Lemma goto_minus_one_leaves_range_state :
  range_state in_range_state /\
  nav_fields (state_of (goto (-1) in_range_state)) = (-1, 30, 4) /\
  data_list (state_of (goto (-1) in_range_state)) = [] /\
  option_map executed (cursor (state_of (goto (-1) in_range_state)))
    = Some [ ("select number from quran WHERE sura_number = 2"%string, []);
             ("select number from quran WHERE sura_number = 2"%string, []);
             ("SELECT * FROM quran WHERE number BETWEEN 8 AND 10"%string, []);
             ("SELECT * FROM quran WHERE juz = -1"%string, []) ] /\
  state_of (goto (-1) in_range_state) <> in_range_state.
Proof.
  split; [apply get_range_sets_range_state |].
  split; [vm_compute; reflexivity |].
  split; [vm_compute; reflexivity |].
  split; [vm_compute; reflexivity |].
  intros H. apply (f_equal type) in H. vm_compute in H. discriminate H.
Qed.

(** ** The statements the selectors send *)

Lemma get_text_keeps_cursor (s : quran_mgr) :
  cursor (state_of (get_text s)) = cursor s.
Proof.
  unfold get_text.
  destruct (data_list s) as [| a l]; [reflexivity |].
  destruct (get_text_loop _ _ _ _ _ _) as [[t p] d]. reflexivity.
Qed.

(** Sending [sql] and rendering what comes back logs exactly [sql], with
    no parameter, whatever the table answers. *)
Lemma fetch_and_render_statements (sql : string) (s : quran_mgr)
    (c : sqlite_cursor) :
  cursor s = Some c ->
  statements
    (state_of ((result <- execute_fetchall sql ;;
                rows <- lift (full_rows result) ;;
                modify (set_data_list rows) ;;
                get_text) s))
  = executed c ++ [(sql, [])].
Proof.
  intros Hc. unfold statements, bind at 1, execute_fetchall. rewrite Hc.
  unfold cursor_execute.
  destruct (tokenize sql) as [ts |]; [| reflexivity].
  destruct (parse_select ts []) as [q |]; [| reflexivity].
  simpl lift. cbv iota. unfold bind at 1.
  destruct (full_rows (run_select q (table c))) as [rows | e];
    [| reflexivity].
  simpl lift. cbv iota. rewrite bind_modify.
  rewrite get_text_keeps_cursor. reflexivity.
Qed.

(** Each selector sends one statement: its fixed prefix followed by the
    decimal digits of the argument it was called with, and no bound
    parameter. *)
Lemma selector_statements (i : Z) (s : quran_mgr) (c : sqlite_cursor) :
  cursor s = Some c ->
  statements (state_of (get_page i s))
  = executed c
      ++ [(("SELECT * FROM quran WHERE page = " ++ str_Z i)%string, [])] /\
  statements (state_of (get_surah i s))
  = executed c
      ++ [(("SELECT * FROM quran WHERE sura_number = " ++ str_Z i)%string,
           [])] /\
  statements (state_of (get_quarter i s))
  = executed c
      ++ [(("SELECT * FROM quran WHERE hizbQuarter = " ++ str_Z i)%string,
           [])] /\
  statements (state_of (get_hizb i s))
  = executed c
      ++ [(("SELECT * FROM quran WHERE hizb = " ++ str_Z i)%string, [])] /\
  statements (state_of (get_juzz i s))
  = executed c
      ++ [(("SELECT * FROM quran WHERE juz = " ++ str_Z i)%string, [])].
Proof.
  intros Hc.
  repeat split;
    match goal with
    | |- statements (state_of (?f i s)) = _ =>
        unfold f; rewrite !bind_modify;
        apply fetch_and_render_statements; exact Hc
    end.
Qed.

(** For comparison, the cursor also takes the index as a bound parameter,
    the way [get_by_ayah_number] and [get_ayah_info] pass the verse
    number: the text is then the same for every index and selects the same
    rows. *)
Lemma bound_parameter_statement (c : sqlite_cursor) (i : Z) :
  cursor_execute c "SELECT * FROM quran WHERE sura_number = ?" [PyInt i]
  = (mk_cursor (table c)
       (executed c
          ++ [("SELECT * FROM quran WHERE sura_number = ?"%string, [PyInt i])]),
     Ok (Rows (filter (fun r => r_sura_number r =? i) (table c)))).
Proof. reflexivity. Qed.

(** C1 at [get_surah(9999)] on the sample table.  The index is cut down to
    114 in [current_pos] only: the statement sent still asks for chapter
    9999, no row comes back, and the call returns the empty text, whereas
    [get_surah(114)] asks for chapter 114 and returns its two verses. *)
Theorem get_surah_above_max_queries_unclamped :
  nav_fields (state_of (get_surah 9999 sample_mgr)) = (114, 114, 1) /\
  nav_fields (state_of (get_surah 114 sample_mgr)) = (114, 114, 1) /\
  statements (state_of (get_surah 9999 sample_mgr))
    = [("SELECT * FROM quran WHERE sura_number = 9999"%string, [])] /\
  statements (state_of (get_surah 114 sample_mgr))
    = [("SELECT * FROM quran WHERE sura_number = 114"%string, [])] /\
  returned (get_surah 9999 sample_mgr) = Some [] /\
  data_list (state_of (get_surah 9999 sample_mgr)) = [] /\
  ayah_data (state_of (get_surah 9999 sample_mgr)) = None /\
  option_map (@List.length char) (returned (get_surah 114 sample_mgr))
    = Some 77%nat /\
  map r_number (data_list (state_of (get_surah 114 sample_mgr)))
    = [6231; 6232] /\
  ayah_data (state_of (get_surah 114 sample_mgr))
    = Some [(6231, 0, 59); (6232, 60, 76)].
Proof.
  repeat split; vm_compute; reflexivity.
Qed.

(** C10 at [get_surah(1)], [get_surah(2)] and the other selectors on the
    sample table.  The text handed to [execute] changes with the index,
    which is formatted into it, and the parameter list is empty. *)
Theorem selectors_format_index_into_statement :
  statements (state_of (get_surah 1 sample_mgr))
    = [("SELECT * FROM quran WHERE sura_number = 1"%string, [])] /\
  statements (state_of (get_surah 2 sample_mgr))
    = [("SELECT * FROM quran WHERE sura_number = 2"%string, [])] /\
  statements (state_of (get_page 2 sample_mgr))
    = [("SELECT * FROM quran WHERE page = 2"%string, [])] /\
  statements (state_of (get_quarter 2 sample_mgr))
    = [("SELECT * FROM quran WHERE hizbQuarter = 2"%string, [])] /\
  statements (state_of (get_hizb 2 sample_mgr))
    = [("SELECT * FROM quran WHERE hizb = 2"%string, [])] /\
  statements (state_of (get_juzz 2 sample_mgr))
    = [("SELECT * FROM quran WHERE juz = 2"%string, [])] /\
  statements
    (state_of (get_range (PyInt 1) (PyInt 2) (PyInt 1) (PyInt 3) sample_mgr))
    = [("select number from quran WHERE sura_number = 1"%string, []);
       ("select number from quran WHERE sura_number = 1"%string, []);
       ("SELECT * FROM quran WHERE number BETWEEN 2 AND 3"%string, [])].
Proof.
  repeat split; vm_compute; reflexivity.
Qed.

(** ** The default of get_range *)

(** When no chapter is given, [to_ayah] is falsy and the [elif] does not
    apply, the statement sent is the literal of the [else] branch, which
    ends in an unmatched quote: the cursor refuses it. *)
Lemma get_range_default_refused
    (from_surah from_ayah to_surah to_ayah : pyval) (s : quran_mgr)
    (c : sqlite_cursor) :
  cursor s = Some c ->
  py_int from_surah < 1 -> py_int to_surah < 1 ->
  truthy to_ayah = false ->
  truthy from_ayah = false \/ is_False to_ayah = false ->
  get_range from_surah from_ayah to_surah to_ayah s
  = Raise OperationalError
      (set_cursor
         (Some (logged "SELECT * FROM quran WHERE number > 1'" c))
         (set_type 5 (set_max_pos (-1) (set_current_pos (-1) s)))).
Proof.
  intros Hc Hf Ht Hto Hel.
  unfold get_range. rewrite !bind_modify.
  unfold check_from_surah, check_to_surah.
  replace (py_int from_surah >=? 1) with false
    by (symmetry; rewrite Z.geb_leb; apply Z.leb_gt; lia).
  replace (py_int to_surah >=? 1) with false
    by (symmetry; rewrite Z.geb_leb; apply Z.leb_gt; lia).
  rewrite !bind_ret.
  assert (Hq : range_statement from_ayah to_ayah
               = "SELECT * FROM quran WHERE number > 1'"%string).
  { unfold range_statement. rewrite Hto.
    destruct Hel as [Hel | Hel]; rewrite Hel;
      [| rewrite andb_false_r]; reflexivity. }
  rewrite Hq. unfold bind at 1, execute_fetchall. simpl cursor.
  rewrite Hc. reflexivity.
Qed.

(** C3 at [get_range()] with its four defaults on the sample table.  The
    statement sent is ["SELECT * FROM quran WHERE number > 1'"]; its
    closing quote opens a string literal that never ends, the cursor
    raises, and nothing is rendered.  Without that quote the statement is
    accepted and selects every verse after the first. *)
Theorem get_range_defaults_raise :
  get_range (PyBool false) (PyBool false) (PyBool false) (PyBool false)
    sample_mgr
  = Raise OperationalError
      (set_cursor
         (Some (logged "SELECT * FROM quran WHERE number > 1'"
                  (mk_cursor sample_db [])))
         (set_type 5 (set_max_pos (-1) (set_current_pos (-1) sample_mgr))))
  /\ tokenize "SELECT * FROM quran WHERE number > 1'" = None
  /\ snd (cursor_execute (mk_cursor sample_db [])
            "SELECT * FROM quran WHERE number > 1" [])
     = Ok (Rows (tl sample_db)).
Proof.
  repeat split; vm_compute; reflexivity.
Qed.

(** ** get_text on an empty verse list *)

Lemma get_text_empty (s : quran_mgr) :
  data_list s = [] -> get_text s = Return [] s.
Proof. intros H. unfold get_text. rewrite H. reflexivity. Qed.

(** C5 after a render.  Chapter 1 of the sample table is rendered, then a
    selector finds no row ([get_surah(9999)]): [get_text] returns the empty
    text through its first [return] and the state keeps the text and the
    seven index entries of chapter 1. *)
Theorem get_text_empty_keeps_previous_index :
  ayah_data at_first_surah
    = Some [(1, 0, 56); (2, 57, 69); (3, 70, 83); (4, 84, 94);
            (5, 95, 105); (6, 106, 116); (7, 117, 127)] /\
  get_text (set_data_list [] at_first_surah)
    = Return [] (set_data_list [] at_first_surah) /\
  returned (get_surah 9999 at_first_surah) = Some [] /\
  data_list (state_of (get_surah 9999 at_first_surah)) = [] /\
  ayah_data (state_of (get_surah 9999 at_first_surah))
    = ayah_data at_first_surah /\
  text (state_of (get_surah 9999 at_first_surah)) = text at_first_surah /\
  List.length (text at_first_surah) = 128%nat.
Proof.
  repeat split; vm_compute; reflexivity.
Qed.

(* ================================================================= *)
(** ** The position index built by get_text *)

Lemma emit_ayah_suffix (show line : bool) (ayah : row) :
  exists body, emit_ayah show line ayah = body ++ ayah_suffix show line ayah.
Proof.
  unfold emit_ayah, ayah_suffix.
  match goal with
  | |- context [if r_numberInSurah ayah =? 1 then ?a else ?b] =>
      exists (if r_numberInSurah ayah =? 1 then a else b)
  end.
  destruct show, line; rewrite <- ?List.app_assoc; reflexivity.
Qed.

(** Every verse emits at least its separator. *)
Lemma emit_ayah_nonempty (show line : bool) (ayah : row) :
  (1 <= List.length (emit_ayah show line ayah))%nat.
Proof.
  destruct (emit_ayah_suffix show line ayah) as [body ->].
  rewrite List.length_app. unfold ayah_suffix. rewrite List.length_app.
  destruct line; simpl; lia.
Qed.

(** The loop, in closed form: the text grows by the emitted verses, the
    counter by their length, the index by their spans. *)
Lemma get_text_loop_spec (show line : bool) (data : list row) :
  forall (text : pystr) (pos : Z) (idx : AyahData.t),
    get_text_loop show line data text pos idx
    = (text ++ emitted show line data,
       pos + Z.of_nat (List.length (emitted show line data)),
       idx ++ spans_from show line pos data).
Proof.
  induction data as [| ayah rest IH]; intros text pos idx.
  - simpl. rewrite !List.app_nil_r, Z.add_0_r. reflexivity.
  - simpl get_text_loop. rewrite IH. unfold AyahData.insert.
    unfold emitted. simpl. fold (emitted show line rest).
    rewrite <- !List.app_assoc, List.length_app, Nat2Z.inj_add. simpl.
    rewrite Z.add_assoc. reflexivity.
Qed.


Lemma spans_from_contiguous (show line : bool) (data : list row) :
  forall start, contiguous_from start (spans_from show line start data).
Proof.
  induction data as [| ayah rest IH]; intros start; simpl.
  - exact I.
  - unfold span_start, span_end. simpl.
    pose proof (emit_ayah_nonempty show line ayah) as Hn.
    split; [reflexivity |]. split; [lia |].
    replace (start + Z.of_nat (List.length (emit_ayah show line ayah)) - 1 + 1)
      with (start + Z.of_nat (List.length (emit_ayah show line ayah)))
      by lia.
    apply IH.
Qed.

(** Spans laid end to end come in increasing order and never overlap:
    each one ends before every later one starts. *)
Lemma contiguous_ordered (idx : AyahData.t) :
  forall start,
    contiguous_from start idx ->
    Forall (fun e => start <= span_start e) idx /\
    ForallOrdPairs (fun e1 e2 => span_end e1 < span_start e2) idx.
Proof.
  induction idx as [| e rest IH]; intros start H.
  - split; constructor.
  - destruct H as (Hs & Hle & Hrest).
    destruct (IH _ Hrest) as (Hlow & Hord).
    split.
    + constructor; [lia |].
      eapply Forall_impl; [| exact Hlow]. simpl. intros a Ha. lia.
    + constructor; [| exact Hord].
      eapply Forall_impl; [| exact Hlow]. simpl. intros a Ha. lia.
Qed.



(** The final [strip] only drops line breaks at the two ends of the
    untrimmed text. *)
Lemma lstrip_split (c : char) (s : pystr) :
  exists k, s = repeat c k ++ lstrip c s.
Proof.
  induction s as [| x s [k IH]].
  - exists 0%nat. reflexivity.
  - simpl. destruct (N.eqb_spec x c) as [-> | Hne].
    + exists (S k). simpl. rewrite <- IH. reflexivity.
    + exists 0%nat. reflexivity.
Qed.

Lemma rev_repeat_char (c : char) (k : nat) : rev (repeat c k) = repeat c k.
Proof.
  induction k as [| k IH]; [reflexivity |].
  simpl. rewrite IH. symmetry. apply repeat_cons.
Qed.

Lemma strip_split (c : char) (s : pystr) :
  exists k m, s = repeat c k ++ strip c s ++ repeat c m.
Proof.
  destruct (lstrip_split c s) as [k Hk].
  destruct (lstrip_split c (rev (lstrip c s))) as [m Hm].
  exists k, m. unfold strip.
  rewrite <- (rev_repeat_char c m), <- rev_app_distr, <- Hm, rev_involutive.
  exact Hk.
Qed.




(* ================================================================= *)
(** ** str.replace and the chapter header *)

Lemma starts_with_app (p r : pystr) : starts_with p (p ++ r) = true.
Proof.
  induction p as [| c p IH]; simpl; [reflexivity |].
  rewrite N.eqb_refl. exact IH.
Qed.

Lemma starts_with_firstn (p : pystr) :
  forall (t : pystr) (k : nat),
    starts_with p t = true -> (List.length p <= k)%nat ->
    starts_with p (firstn k t) = true.
Proof.
  induction p as [| x p IH]; intros t k H Hk; [reflexivity |].
  destruct t as [| y t]; [discriminate H |].
  destruct k as [| k]; [simpl in Hk; lia |].
  simpl in *. apply andb_true_iff in H. destruct H as [Hxy Hp].
  rewrite Hxy. apply IH; [exact Hp | lia].
Qed.

Lemma starts_with_app_firstn (p : pystr) :
  forall (a t : pystr) (k : nat),
    starts_with p (a ++ t) = true ->
    (List.length p <= List.length a + k)%nat ->
    starts_with p (a ++ firstn k t) = true.
Proof.
  induction p as [| x p IH]; intros a t k H Hk; [reflexivity |].
  destruct a as [| y a].
  - apply starts_with_firstn; [exact H | exact Hk].
  - simpl in *. apply andb_true_iff in H. destruct H as [Hxy Hp].
    rewrite Hxy. apply IH; [exact Hp | lia].
Qed.

Lemma contains_suffix (p n1 n2 : pystr) :
  starts_with p n2 = true -> contains p (n1 ++ n2) = true.
Proof.
  intros H. induction n1 as [| c n1 IH].
  - destruct n2; simpl; rewrite H; reflexivity.
  - simpl. rewrite IH. apply orb_true_r.
Qed.

Lemma replace_from_skip (old new a rest : pystr) :
  replace_from old new (List.length a) (a ++ rest)
  = replace_from old new 0 rest.
Proof.
  induction a as [| x a IH]; simpl.
  - destruct rest; reflexivity.
  - exact IH.
Qed.

(** An occurrence at the current position is replaced and the scan goes
    on after it. *)
Lemma replace_from_hit (c : char) (old new rest : pystr) :
  replace_from (c :: old) new 0 ((c :: old) ++ rest)
  = new ++ replace_from (c :: old) new 0 rest.
Proof.
  change ((c :: old) ++ rest) with (c :: (old ++ rest)).
  unfold replace_from at 1. fold replace_from.
  change (c :: old ++ rest) with ((c :: old) ++ rest).
  rewrite starts_with_app.
  replace (List.length (c :: old) - 1)%nat with (List.length old)
    by (simpl; lia).
  rewrite replace_from_skip. reflexivity.
Qed.

(** Without an occurrence nothing changes. *)
Lemma replace_from_miss (old new : pystr) (s : pystr) :
  contains old s = false -> replace_from old new 0 s = s.
Proof.
  induction s as [| c s IH]; intros H; [reflexivity |].
  simpl in H. apply orb_false_iff in H. destruct H as [H1 H2].
  unfold replace_from at 1. fold replace_from.
  rewrite H1, (IH H2). reflexivity.
Qed.

(** A prefix inside which no occurrence starts is copied as it is. *)
Lemma replace_from_app (old new h t : pystr) :
  no_start old h t ->
  replace_from old new 0 (h ++ t) = h ++ replace_from old new 0 t.
Proof.
  induction h as [| c h IH]; intros H; [reflexivity |].
  change ((c :: h) ++ t) with (c :: (h ++ t)).
  unfold replace_from at 1. fold replace_from.
  change (c :: (h ++ t)) with ((c :: h) ++ t).
  rewrite (H [] (c :: h) eq_refl) by discriminate.
  rewrite IH; [reflexivity |].
  intros h1 h2 E Hne.
  apply (H (c :: h1) h2); [rewrite E; reflexivity | exact Hne].
Qed.

(** [no_start] from the absence of [p] in the prefix extended by the
    characters an occurrence could still reach. *)
Lemma no_start_of_contains (p h t : pystr) :
  contains p (h ++ firstn (List.length p - 1) t) = false ->
  no_start p h t.
Proof.
  intros H h1 h2 E Hne.
  destruct (starts_with p (h2 ++ t)) eqn:Hs; [exfalso | reflexivity].
  assert (Hk : starts_with p (h2 ++ firstn (List.length p - 1) t) = true).
  { apply starts_with_app_firstn; [exact Hs |].
    destruct h2; [contradiction | simpl; lia]. }
  apply (contains_suffix p h1) in Hk.
  rewrite E, <- List.app_assoc, Hk in H. discriminate H.
Qed.

Lemma starts_with_cons (x y : char) (p s : pystr) :
  starts_with (x :: p) (y :: s) = ((x =? y)%N && starts_with p s).
Proof. reflexivity. Qed.

(** An occurrence of [b ++ " "] that runs over a blank followed by a
    character foreign to the invocation has all of [b] before that
    blank. *)
Lemma starts_with_before_gap (b : pystr) :
  forall (n : pystr) (d : char) (rest : pystr),
    forallb invocation_char b = true ->
    invocation_char d = false ->
    starts_with (b ++ [space]) (n ++ space :: d :: rest) = true ->
    starts_with b n = true.
Proof.
  induction b as [| x b IH]; intros n d rest Hb Hd H; [reflexivity |].
  change (forallb invocation_char (x :: b))
    with (invocation_char x && forallb invocation_char b) in Hb.
  apply andb_true_iff in Hb. destruct Hb as [Hx Hb].
  destruct n as [| y n].
  - exfalso.
    change (starts_with (x :: (b ++ [space])) (space :: d :: rest) = true)
      in H.
    rewrite starts_with_cons in H.
    apply andb_true_iff in H. destruct H as [_ H].
    destruct b as [| z b].
    + change (starts_with (space :: []) (d :: rest) = true) in H.
      rewrite starts_with_cons in H.
      apply andb_true_iff in H. destruct H as [H _].
      apply N.eqb_eq in H. subst d. discriminate Hd.
    + change (starts_with (z :: (b ++ [space])) (d :: rest) = true) in H.
      rewrite starts_with_cons in H.
      apply andb_true_iff in H. destruct H as [H _].
      apply N.eqb_eq in H. subst d.
      change (forallb invocation_char (z :: b))
        with (invocation_char z && forallb invocation_char b) in Hb.
      apply andb_true_iff in Hb. destruct Hb as [Hz _].
      rewrite Hz in Hd. discriminate Hd.
  - change (starts_with (x :: (b ++ [space]))
              (y :: (n ++ space :: d :: rest)) = true) in H.
    rewrite starts_with_cons in H.
    apply andb_true_iff in H. destruct H as [Hxy H].
    rewrite starts_with_cons, Hxy. simpl andb.
    eapply IH; eassumption.
Qed.

Lemma of_string_cons (c : ascii) (s : string) :
  of_string (String c s) = N_of_ascii c :: of_string s.
Proof. reflexivity. Qed.

(** The digits of a number are foreign to the invocation, and so is the
    sign. *)
Lemma string_of_uint_chars (d : Decimal.uint) :
  forallb (fun c => negb (invocation_char c))
    (of_string (NilEmpty.string_of_uint d)) = true.
Proof.
  induction d; simpl NilEmpty.string_of_uint;
    [reflexivity | rewrite of_string_cons; simpl forallb; rewrite IHd;
                   reflexivity ..].
Qed.

Lemma str_Z_chars (z : Z) :
  forallb (fun c => negb (invocation_char c)) (of_string (str_Z z)) = true.
Proof.
  unfold str_Z. destruct (Z.to_int z) as [d | d]; simpl NilZero.string_of_int.
  - unfold NilZero.string_of_uint.
    destruct d; try reflexivity; apply string_of_uint_chars.
  - rewrite of_string_cons. simpl forallb.
    unfold NilZero.string_of_uint.
    destruct d; try reflexivity; apply string_of_uint_chars.
Qed.

Lemma basmala_chars : forallb invocation_char basmala = true.
Proof. reflexivity. Qed.

Lemma break_after_basmala_scan (s : pystr) :
  break_after_basmala s
  = replace_from (basmala ++ [space]) (basmala ++ [newline]) 0 s.
Proof. reflexivity. Qed.

(** No occurrence of the invocation followed by a blank starts inside the
    header line of a chapter whose name does not contain the
    invocation. *)
Lemma header_no_start (ayah : row) (t : pystr) :
  contains basmala (r_sura_name ayah) = false ->
  no_start (basmala ++ [space]) (start_point_text ayah) t.
Proof.
  intros Hname h1 h2 E Hne.
  unfold start_point_text in E.
  remember (of_string (str_Z (r_sura_number ayah))
              ++ [newline; 124%N; newline]) as mark eqn:Etl.
  assert (Htl : forallb (fun c => negb (invocation_char c)) mark = true).
  { subst mark. rewrite forallb_app, str_Z_chars. reflexivity. }
  assert (Hgap : forall l, starts_with (basmala ++ [space])
                             ((l ++ space :: mark) ++ t) = true ->
                           starts_with basmala l = true).
  { intros l H. destruct mark as [| d mark'].
    - symmetry in Etl. apply app_eq_nil in Etl. destruct Etl as [_ Etl].
      discriminate Etl.
    - simpl in Htl. apply andb_true_iff in Htl. destruct Htl as [Hd _].
      apply negb_true_iff in Hd.
      rewrite <- List.app_assoc in H.
      change ((space :: d :: mark') ++ t) with (space :: d :: (mark' ++ t)) in H.
      exact (starts_with_before_gap basmala l d (mark' ++ t)
               basmala_chars Hd H). }
  destruct (starts_with (basmala ++ [space]) (h2 ++ t)) eqn:Hs;
    [exfalso | reflexivity].
  change ([space] ++ mark) with (space :: mark) in E.
  apply app_eq_app in E. destruct E as [l [[E1 E2] | [E1 E2]]].
  - subst h2. apply Hgap in Hs.
    apply (contains_suffix basmala h1) in Hs.
    rewrite <- E1, Hname in Hs. discriminate Hs.
  - destruct l as [| c l].
    + simpl in E2. subst h2. apply (Hgap []) in Hs. discriminate Hs.
    + simpl in E2. injection E2 as _ E2.
      destruct h2 as [| d h2]; [contradiction |].
      rewrite E2, forallb_app in Htl.
      apply andb_true_iff in Htl. destruct Htl as [_ Htl].
      simpl in Htl. apply andb_true_iff in Htl. destruct Htl as [Hd _].
      apply negb_true_iff in Hd.
      change (starts_with (1576%N :: List.tl (basmala ++ [space]))
                (d :: (h2 ++ t)) = true) in Hs.
      rewrite starts_with_cons in Hs.
      apply andb_true_iff in Hs. destruct Hs as [Hs _].
      apply N.eqb_eq in Hs. subst d. discriminate Hd.
Qed.

(** C7, as the code has it.  A verse whose number in its chapter is 1 is
    emitted as the header line ["{name} {id}\n|\n"], the verse text, the
    optional number and the separator.
    - In chapter 1 the verse text is copied as it is.
    - In any other chapter whose name does not contain the invocation,
      the header is copied as it is and the verse text goes through the
      replacement, which turns the blank that follows an occurrence of
      the invocation into a line break: the text up to the first
      occurrence followed by a blank is copied, the blank becomes a line
      break, and the scan goes on after it; a text where the invocation
      is nowhere followed by a blank is copied as it is. *)
Theorem first_verse_header_and_break (show line : bool) (ayah : row) :
  r_numberInSurah ayah = 1 ->
  (r_sura_number ayah = 1 ->
     emit_ayah show line ayah
     = start_point_text ayah ++ r_text ayah ++ ayah_suffix show line ayah) /\
  (r_sura_number ayah <> 1 ->
   contains basmala (r_sura_name ayah) = false ->
     emit_ayah show line ayah
     = start_point_text ayah ++ break_after_basmala (r_text ayah)
         ++ ayah_suffix show line ayah) /\
  (forall pre rest : pystr,
     contains (basmala ++ [space]) (pre ++ basmala) = false ->
     break_after_basmala (pre ++ basmala ++ space :: rest)
     = pre ++ basmala ++ newline :: break_after_basmala rest) /\
  (forall s : pystr,
     contains (basmala ++ [space]) s = false ->
     break_after_basmala s = s).
Proof.
  intros Hfirst. split; [| split; [| split]].
  - intros Hone. unfold emit_ayah, ayah_suffix.
    rewrite Hfirst, Hone. simpl Z.eqb. cbv iota. simpl negb. cbv iota.
    destruct show, line; rewrite <- ?List.app_assoc; reflexivity.
  - intros Hother Hname. unfold emit_ayah, ayah_suffix.
    rewrite Hfirst. simpl Z.eqb. cbv iota.
    replace (r_sura_number ayah =? 1) with false
      by (symmetry; apply Z.eqb_neq; exact Hother).
    simpl negb. cbv iota.
    fold (break_after_basmala (start_point_text ayah ++ r_text ayah)).
    rewrite (break_after_basmala_scan (start_point_text ayah ++ _)).
    rewrite (replace_from_app _ _ _ _ (header_no_start ayah _ Hname)).
    rewrite <- break_after_basmala_scan.
    destruct show, line; rewrite <- ?List.app_assoc; reflexivity.
  - intros pre rest Hpre.
    rewrite !break_after_basmala_scan.
    rewrite replace_from_app.
    + change (basmala ++ space :: rest) with ((basmala ++ [space]) ++ rest).
      change (basmala ++ [space])
        with (1576%N :: List.tl (basmala ++ [space])) at 1 2.
      rewrite replace_from_hit. reflexivity.
    + apply no_start_of_contains.
      replace (firstn (List.length (basmala ++ [space]) - 1)
                 (basmala ++ space :: rest))
        with basmala by reflexivity.
      exact Hpre.
  - intros s Hs. rewrite break_after_basmala_scan.
    apply replace_from_miss. exact Hs.
Qed.

Lemma first_verse_header_and_break_witness :
  emit_ayah true false first_of_fatiha
  = start_point_text first_of_fatiha ++ basmala
      ++ ayah_suffix true false first_of_fatiha /\
  emit_ayah true false first_of_baqara
  = start_point_text first_of_baqara
      ++ break_after_basmala (r_text first_of_baqara)
      ++ ayah_suffix true false first_of_baqara /\
  break_after_basmala ([] ++ basmala ++ space :: of_string "alif lam mim")
  = [] ++ basmala ++ newline :: break_after_basmala (of_string "alif lam mim") /\
  break_after_basmala (of_string "alif lam mim") = of_string "alif lam mim".
Proof.
  destruct (first_verse_header_and_break true false first_of_fatiha eq_refl)
    as (Hone & _ & _ & _).
  destruct (first_verse_header_and_break true false first_of_baqara eq_refl)
    as (_ & Hother & Hhit & Hmiss).
  split; [apply Hone; reflexivity |].
  split; [apply Hother; [discriminate | reflexivity] |].
  split; [apply Hhit; reflexivity | apply Hmiss; reflexivity].
Defined.

(** C7 as stated fails in two ways.  A first verse outside chapter 1 whose
    text is the invocation with no blank after it contains the invocation
    and gets no line break.  And when the chapter name itself ends with
    the invocation, the replacement reaches into the header, which is then
    no longer a prefix of what is emitted. *)
Lemma invocation_without_blank_gets_no_break :
  let r := mk_row basmala 8 (of_string "Al-Baqara") 2 1 1 1 2 1 in
  let r' := mk_row (of_string "alif lam mim") 8 basmala 2 1 1 1 2 1 in
  (r_numberInSurah r = 1 /\ r_sura_number r <> 1 /\
   contains basmala (r_text r) = true /\
   emit_ayah true false r
   = start_point_text r ++ basmala ++ of_string " (1) " /\
   contains (basmala ++ [newline]) (emit_ayah true false r) = false) /\
  (r_numberInSurah r' = 1 /\
   starts_with (start_point_text r') (emit_ayah true false r') = false).
Proof.
  repeat split; try reflexivity. discriminate.
Qed.

(* ================================================================= *)
(** ** Statements that end in a formatted number *)

Lemma lex_run_app (a b : string) :
  forall st,
    lex_run st (a ++ b)
    = match lex_run st a with
      | Some (ts, st') =>
          match lex_run st' b with
          | Some (ts', st'') => Some (ts ++ ts', st'')
          | None => None
          end
      | None => None
      end.
Proof.
  induction a as [| c a IH]; intros st; simpl.
  - destruct (lex_run st b) as [[ts st'] |]; reflexivity.
  - destruct (lex_step st c) as [[ts st'] |]; [| reflexivity].
    rewrite IH.
    destruct (lex_run st' a) as [[ts1 st1] |]; [| reflexivity].
    destruct (lex_run st1 b) as [[ts2 st2] |]; [| reflexivity].
    rewrite List.app_assoc. reflexivity.
Qed.

(** Inside a number every digit is pushed on the digits read so far. *)
Lemma lex_run_digits (d : Decimal.uint) :
  forall acc,
    lex_run (LNum acc) (NilEmpty.string_of_uint d)
    = Some ([], LNum (Decimal.revapp d acc)).
Proof.
  induction d; intros acc; simpl NilEmpty.string_of_uint;
    [reflexivity | simpl lex_run; rewrite IHd; reflexivity ..].
Qed.

Lemma lex_run_uint (d : Decimal.uint) :
  d <> Decimal.Nil ->
  lex_run LStart (NilEmpty.string_of_uint d)
  = Some ([], LNum (Decimal.rev d)).
Proof.
  intros Hd. unfold Decimal.rev.
  destruct d; [contradiction | ..]; simpl NilEmpty.string_of_uint;
    simpl lex_run; rewrite lex_run_digits; reflexivity.
Qed.

Lemma lex_run_nilzero (d : Decimal.uint) :
  d <> Decimal.Nil ->
  lex_run LStart (NilZero.string_of_uint d)
  = Some ([], LNum (Decimal.rev d)).
Proof.
  intros Hd. unfold NilZero.string_of_uint.
  destruct d; [contradiction | ..]; apply lex_run_uint; discriminate.
Qed.

(** [str(n)] is read back as the tokens of [n]. *)
Lemma lex_run_str_Z (z : Z) :
  exists acc,
    lex_run LStart (str_Z z)
    = Some (removelast (value_tokens z), LNum acc) /\
    removelast (value_tokens z) ++ flush (LNum acc) = value_tokens z.
Proof.
  unfold str_Z. destruct z as [| p | p]; simpl Z.to_int.
  - exists (Decimal.D0 Decimal.Nil). split; reflexivity.
  - exists (Decimal.rev (Pos.to_uint p)).
    pose proof (DecimalPos.Unsigned.to_uint_nonnil p) as Hn.
    split.
    + simpl NilZero.string_of_int. apply lex_run_nilzero. exact Hn.
    + simpl. rewrite DecimalFacts.rev_rev. unfold Z.of_uint.
      rewrite DecimalPos.Unsigned.of_to. reflexivity.
  - exists (Decimal.rev (Pos.to_uint p)).
    pose proof (DecimalPos.Unsigned.to_uint_nonnil p) as Hn.
    split.
    + simpl NilZero.string_of_int.
      change (String "-" ?s) with ("-" ++ s)%string.
      rewrite lex_run_app.
      change (lex_run LStart "-") with (Some ([TMinus], LStart)).
      cbv beta iota. rewrite (lex_run_nilzero _ Hn). reflexivity.
    + simpl. rewrite DecimalFacts.rev_rev. unfold Z.of_uint.
      rewrite DecimalPos.Unsigned.of_to. reflexivity.
Qed.

(** A statement made of a fixed text that ends outside any token,
    followed by a formatted number. *)
Lemma tokenize_with_number (prefix : string) (ptoks : list token) (z : Z) :
  lex_run LStart prefix = Some (ptoks, LStart) ->
  tokenize (prefix ++ str_Z z) = Some (ptoks ++ value_tokens z).
Proof.
  intros Hp. unfold tokenize. rewrite lex_run_app, Hp.
  destruct (lex_run_str_Z z) as (acc & Hrun & Hflush).
  rewrite Hrun. rewrite <- List.app_assoc, Hflush. reflexivity.
Qed.

Lemma parse_value_tokens (z : Z) (ps : list pyval) :
  parse_value (value_tokens z) ps = Some (z, [], ps).
Proof. destruct z; reflexivity. Qed.

(** Such a statement runs as the query its tokens stand for. *)
Lemma execute_with_number (c : sqlite_cursor) (prefix : string)
    (ptoks : list token) (z : Z) (q : select_stmt) :
  lex_run LStart prefix = Some (ptoks, LStart) ->
  parse_select (ptoks ++ value_tokens z) [] = Some q ->
  cursor_execute c (prefix ++ str_Z z) []
  = (logged (prefix ++ str_Z z) c, Ok (run_select q (table c))).
Proof.
  intros Hp Hq. unfold cursor_execute, logged.
  rewrite (tokenize_with_number _ _ z Hp), Hq. reflexivity.
Qed.

(** What the chapter look-up of [get_range] returns for an [int]
    chapter. *)
Lemma execute_select_number (c : sqlite_cursor) (z : Z) :
  cursor_execute c ("select number from quran WHERE sura_number = " ++ str_Z z)
    []
  = (logged ("select number from quran WHERE sura_number = " ++ str_Z z) c,
     Ok (Ints (numbers_of_sura (table c) z))).
Proof.
  apply (execute_with_number c _
           [TId "select"; TId "number"; TId "from"; TId "quran";
            TId "where"; TId "sura_number"; TEq] z
           (mk_select (OneColumn ColNumber) (Cmp ColSuraNumber OpEq z))).
  - reflexivity.
  - destruct z; reflexivity.
Qed.

(** The same for a chapter given as [True], which is formatted as
    ["True"] and read as 1. *)
Lemma execute_select_number_pyval (c : sqlite_cursor) (v : pyval) :
  1 <= py_int v ->
  cursor_execute c
    ("select number from quran WHERE sura_number = " ++ py_str v) []
  = (logged ("select number from quran WHERE sura_number = " ++ py_str v) c,
     Ok (Ints (numbers_of_sura (table c) (py_int v)))).
Proof.
  intros Hv. destruct v as [[|] | z].
  - reflexivity.
  - simpl in Hv. lia.
  - apply execute_select_number.
Qed.

(* ================================================================= *)
(** ** The bounds of get_range *)

Lemma execute_chapter_lookup (surah : pyval) (s : quran_mgr)
    (c : sqlite_cursor) :
  cursor s = Some c ->
  1 <= py_int surah ->
  execute_fetchall (chapter_lookup surah) s
  = Return (Ints (numbers_of_sura (table c) (py_int surah)))
      (set_cursor (Some (logged (chapter_lookup surah) c)) s).
Proof.
  intros Hc Hs. unfold execute_fetchall, chapter_lookup. rewrite Hc.
  rewrite (execute_select_number_pyval c surah Hs). reflexivity.
Qed.

(** A verse number within the chapter is moved by the chapter's first
    global number, for the lower bound ... *)
Lemma check_from_surah_in_range (surah ayah : pyval) (s : quran_mgr)
    (c : sqlite_cursor) (first : Z) :
  cursor s = Some c ->
  1 <= py_int surah ->
  1 <= py_int ayah
    <= Z.of_nat (List.length (numbers_of_sura (table c) (py_int surah))) ->
  hd_error (numbers_of_sura (table c) (py_int surah)) = Some first ->
  check_from_surah surah ayah s
  = Return (PyInt (first + (py_int ayah - 1)))
      (set_cursor (Some (logged (chapter_lookup surah) c)) s).
Proof.
  intros Hc Hs Ha Hfirst. unfold check_from_surah.
  replace (py_int surah >=? 1) with true by (symmetry; apply Z.geb_le; lia).
  fold (chapter_lookup surah). unfold bind at 1.
  rewrite (execute_chapter_lookup surah s c Hc Hs).
  replace (py_int ayah <? 1) with false by (symmetry; apply Z.ltb_ge; lia).
  unfold len_result.
  replace (py_int ayah
           >? Z.of_nat (List.length (numbers_of_sura (table c) (py_int surah))))
    with false by (symmetry; rewrite Z.gtb_ltb; apply Z.ltb_ge; lia).
  destruct (numbers_of_sura (table c) (py_int surah)) as [| n ns];
    [discriminate Hfirst |].
  injection Hfirst as ->. reflexivity.
Qed.

(** ... and for the upper bound. *)
Lemma check_to_surah_in_range (surah ayah : pyval) (s : quran_mgr)
    (c : sqlite_cursor) (first : Z) :
  cursor s = Some c ->
  1 <= py_int surah ->
  1 <= py_int ayah
    <= Z.of_nat (List.length (numbers_of_sura (table c) (py_int surah))) ->
  hd_error (numbers_of_sura (table c) (py_int surah)) = Some first ->
  check_to_surah surah ayah s
  = Return (PyInt (first + (py_int ayah - 1)))
      (set_cursor (Some (logged (chapter_lookup surah) c)) s).
Proof.
  intros Hc Hs Ha Hfirst. unfold check_to_surah.
  replace (py_int surah >=? 1) with true by (symmetry; apply Z.geb_le; lia).
  fold (chapter_lookup surah). unfold bind at 1.
  rewrite (execute_chapter_lookup surah s c Hc Hs).
  replace (py_int ayah <? 1) with false by (symmetry; apply Z.ltb_ge; lia).
  unfold len_result.
  replace (py_int ayah
           >? Z.of_nat (List.length (numbers_of_sura (table c) (py_int surah))))
    with false by (symmetry; rewrite Z.gtb_ltb; apply Z.ltb_ge; lia).
  destruct (numbers_of_sura (table c) (py_int surah)) as [| n ns];
    [discriminate Hfirst |].
  injection Hfirst as ->. reflexivity.
Qed.





(* ================================================================= *)
(** ** What the selectors store *)

Lemma get_text_keeps_data_list (s : quran_mgr) :
  data_list (state_of (get_text s)) = data_list s.
Proof.
  unfold get_text.
  destruct (data_list s) as [| a l] eqn:E; [exact E |].
  destruct (get_text_loop _ _ _ _ _ _) as [[t p] d]. exact E.
Qed.

Lemma fetch_and_render_rows (prefix : string) (ptoks : list token)
    (col : column) (z : Z) (s : quran_mgr) (c : sqlite_cursor) :
  cursor s = Some c ->
  lex_run LStart prefix = Some (ptoks, LStart) ->
  parse_select (ptoks ++ value_tokens z) []
    = Some (mk_select AllColumns (Cmp col OpEq z)) ->
  data_list
    (state_of ((result <- execute_fetchall (prefix ++ str_Z z) ;;
                rows <- lift (full_rows result) ;;
                modify (set_data_list rows) ;;
                get_text) s))
  = filter (fun r => column_value col r =? z) (table c).
Proof.
  intros Hc Hp Hq. unfold bind at 1, execute_fetchall. rewrite Hc.
  rewrite (execute_with_number c prefix ptoks z _ Hp Hq).
  simpl lift. cbv iota. unfold bind at 1. simpl lift. cbv iota.
  rewrite bind_modify, get_text_keeps_data_list. reflexivity.
Qed.

(** Each selector stores the rows whose coordinate equals the argument it
    was called with, in table order: the argument as given, also when it
    exceeds the maximum of the category. *)
Lemma selector_rows (i : Z) (s : quran_mgr) (c : sqlite_cursor) :
  cursor s = Some c ->
  data_list (state_of (get_page i s))
    = filter (fun r => r_page r =? i) (table c) /\
  data_list (state_of (get_surah i s))
    = filter (fun r => r_sura_number r =? i) (table c) /\
  data_list (state_of (get_quarter i s))
    = filter (fun r => r_hizbQuarter r =? i) (table c) /\
  data_list (state_of (get_hizb i s))
    = filter (fun r => r_hizb r =? i) (table c) /\
  data_list (state_of (get_juzz i s))
    = filter (fun r => r_juz r =? i) (table c).
Proof.
  intros Hc.
  repeat split;
    [ unfold get_page | unfold get_surah | unfold get_quarter
    | unfold get_hizb | unfold get_juzz ];
    rewrite !bind_modify;
    [ apply (fetch_and_render_rows _
               [TId "select"; TStar; TId "from"; TId "quran"; TId "where";
                TId "page"; TEq] ColPage i _ c)
    | apply (fetch_and_render_rows _
               [TId "select"; TStar; TId "from"; TId "quran"; TId "where";
                TId "sura_number"; TEq] ColSuraNumber i _ c)
    | apply (fetch_and_render_rows _
               [TId "select"; TStar; TId "from"; TId "quran"; TId "where";
                TId "hizbquarter"; TEq] ColHizbQuarter i _ c)
    | apply (fetch_and_render_rows _
               [TId "select"; TStar; TId "from"; TId "quran"; TId "where";
                TId "hizb"; TEq] ColHizb i _ c)
    | apply (fetch_and_render_rows _
               [TId "select"; TStar; TId "from"; TId "quran"; TId "where";
                TId "juz"; TEq] ColJuz i _ c) ];
    first [ exact Hc | reflexivity | destruct i; reflexivity ].
Qed.

(* ================================================================= *)
(** ** The rows of a range *)

Lemma lex_run_and (acc : Decimal.uint) :
  lex_run (LNum acc) " AND "
  = Some (flush (LNum acc) ++ [TId "and"], LStart).
Proof. reflexivity. Qed.

Lemma tokenize_between (prefix : string) (ptoks : list token) (a b : Z) :
  lex_run LStart prefix = Some (ptoks, LStart) ->
  tokenize (prefix ++ str_Z a ++ " AND " ++ str_Z b)
  = Some (ptoks ++ value_tokens a ++ [TId "and"] ++ value_tokens b).
Proof.
  intros Hp. unfold tokenize.
  destruct (lex_run_str_Z a) as (acc_a & Ha & Hfa).
  destruct (lex_run_str_Z b) as (acc_b & Hb & Hfb).
  rewrite lex_run_app, Hp, lex_run_app, Ha, lex_run_app, lex_run_and, Hb.
  rewrite <- Hfa at 2. rewrite <- Hfb at 2.
  rewrite <- !List.app_assoc. reflexivity.
Qed.

(** The [BETWEEN] statement of [get_range] selects the rows whose global
    number lies between the two bounds, both included. *)
Lemma execute_between (c : sqlite_cursor) (a b : Z) :
  cursor_execute c
    ("SELECT * FROM quran WHERE number BETWEEN " ++ str_Z a
       ++ " AND " ++ str_Z b) []
  = (logged ("SELECT * FROM quran WHERE number BETWEEN " ++ str_Z a
               ++ " AND " ++ str_Z b) c,
     Ok (Rows (filter (fun r => (a <=? r_number r) && (r_number r <=? b))
                 (table c)))).
Proof.
  unfold cursor_execute, logged.
  rewrite (tokenize_between "SELECT * FROM quran WHERE number BETWEEN "
             [TId "select"; TStar; TId "from"; TId "quran"; TId "where";
              TId "number"; TId "between"] a b eq_refl).
  assert (Hq :
    parse_select
      ([TId "select"; TStar; TId "from"; TId "quran"; TId "where";
        TId "number"; TId "between"]
       ++ value_tokens a ++ [TId "and"] ++ value_tokens b) []
    = Some (mk_select AllColumns (Between ColNumber a b))).
  { destruct a, b; reflexivity. }
  rewrite Hq. reflexivity.
Qed.

(** With both bounds inside their chapters and an upper bound other than
    0, [get_range] stores the rows from the resolved lower bound to the
    resolved upper bound. *)
Lemma get_range_in_range_rows
    (from_surah from_ayah to_surah to_ayah : pyval) (s : quran_mgr)
    (c : sqlite_cursor) (first_from first_to : Z) :
  cursor s = Some c ->
  1 <= py_int from_surah ->
  1 <= py_int to_surah ->
  1 <= py_int from_ayah
    <= Z.of_nat (List.length
                   (numbers_of_sura (table c) (py_int from_surah))) ->
  1 <= py_int to_ayah
    <= Z.of_nat (List.length
                   (numbers_of_sura (table c) (py_int to_surah))) ->
  hd_error (numbers_of_sura (table c) (py_int from_surah)) = Some first_from ->
  hd_error (numbers_of_sura (table c) (py_int to_surah)) = Some first_to ->
  first_to + (py_int to_ayah - 1) <> 0 ->
  data_list (state_of (get_range from_surah from_ayah to_surah to_ayah s))
  = filter
      (fun r =>
         (first_from + (py_int from_ayah - 1) <=? r_number r)
         && (r_number r <=? first_to + (py_int to_ayah - 1)))
      (table c).
Proof.
  intros Hc Hfs Hts Hfa Hta Hff Hft Hnz.
  unfold get_range. rewrite !bind_modify.
  set (s0 := set_type 5 (set_max_pos (-1) (set_current_pos (-1) s))).
  assert (Hc0 : cursor s0 = Some c) by exact Hc.
  unfold bind at 1.
  rewrite (check_from_surah_in_range _ _ s0 c first_from Hc0 Hfs Hfa Hff).
  set (s1 := set_cursor (Some (logged (chapter_lookup from_surah) c)) s0).
  assert (Hc1 : cursor s1 = Some (logged (chapter_lookup from_surah) c))
    by reflexivity.
  unfold bind at 1.
  rewrite (check_to_surah_in_range _ _ s1 _ first_to Hc1 Hts Hta Hft).
  set (s2 := set_cursor _ s1).
  unfold range_statement, truthy. simpl py_int. simpl is_False. cbv iota.
  replace (first_to + (py_int to_ayah - 1) =? 0) with false
    by (symmetry; apply Z.eqb_neq; exact Hnz).
  simpl negb. cbv iota. simpl py_str.
  unfold bind at 1, execute_fetchall. simpl cursor. cbv beta iota.
  rewrite execute_between.
  simpl lift. cbv iota. unfold bind at 1. simpl lift. cbv iota.
  rewrite bind_modify, get_text_keeps_data_list. reflexivity.
Qed.

(* ================================================================= *)
(** * Further properties *)

(** ** Selectors as functions of the table *)

Lemma get_text_returns (s : quran_mgr) :
  returned (get_text s)
  = Some (rendering (show_ayah_number s) (aya_to_line s) (data_list s)).
Proof.
  unfold get_text, rendering.
  destruct (data_list s) as [| a l] eqn:E; [reflexivity |].
  rewrite get_text_loop_spec. reflexivity.
Qed.

(** Reasoning by tag: the four named tags, then any other one. *)
Lemma tag_case (P : Z -> Prop) :
  P 0 -> P 1 -> P 2 -> P 3 ->
  (forall t, (t =? 0) = false -> (t =? 1) = false ->
             (t =? 2) = false -> (t =? 3) = false -> P t) ->
  forall t, P t.
Proof.
  intros H0 H1 H2 H3 Hother t.
  destruct (Z.eqb_spec t 0) as [-> |]; [exact H0 |].
  destruct (Z.eqb_spec t 1) as [-> |]; [exact H1 |].
  destruct (Z.eqb_spec t 2) as [-> |]; [exact H2 |].
  destruct (Z.eqb_spec t 3) as [-> |]; [exact H3 |].
  apply Hother; apply Z.eqb_neq; assumption.
Qed.

Ltac eval_tag_tests :=
  repeat match goal with
         | |- context [Z.eqb ?a ?b] =>
             match a with
             | 0 => idtac | 1 => idtac | 2 => idtac | 3 => idtac | 4 => idtac
             end;
             let v := eval vm_compute in (Z.eqb a b) in
             change (Z.eqb a b) with v
         end.

Ltac eval_tags :=
  unfold dispatch_tag, selector, coordinate, category_max,
    category_statement;
  repeat (progress (eval_tag_tests; simpl orb; cbv iota)).

Ltac by_tag t :=
  pattern t; apply tag_case; clear t;
  [ eval_tags | eval_tags | eval_tags | eval_tags
  | intros t ?E0 ?E1 ?E2 ?E3;
    unfold dispatch_tag, selector, coordinate, category_max,
      category_statement;
    rewrite ?E0, ?E1, ?E2, ?E3; simpl orb; cbv iota; eval_tags ].

Lemma selector_dispatch_tag (t : Z) :
  selector (dispatch_tag t) = selector t.
Proof. by_tag t; reflexivity. Qed.

Lemma get_by_type_selector (s : quran_mgr) :
  get_by_type s = selector (type s) (current_pos s) s.
Proof.
  unfold get_by_type, selector.
  destruct (type s =? 0); [reflexivity |].
  destruct (type s =? 1); [reflexivity |].
  destruct (type s =? 2); [reflexivity |].
  destruct (type s =? 3); reflexivity.
Qed.

Lemma cursor_execute_logs (c : sqlite_cursor) (sql : string) :
  fst (cursor_execute c sql []) = logged sql c.
Proof.
  unfold cursor_execute, logged.
  destruct (tokenize sql) as [ts |]; [| reflexivity].
  destruct (parse_select ts []); reflexivity.
Qed.

(** The statement of a category selects the rows of the unit. *)
Lemma execute_category_statement (c : sqlite_cursor) (t i : Z) :
  cursor_execute c (category_statement (dispatch_tag t) i) []
  = (logged (category_statement (dispatch_tag t) i) c,
     Ok (Rows (unit_rows (dispatch_tag t) i (table c)))).
Proof.
  unfold unit_rows. by_tag t.
  - apply (execute_with_number c _
             [TId "select"; TStar; TId "from"; TId "quran"; TId "where";
              TId "page"; TEq] i
             (mk_select AllColumns (Cmp ColPage OpEq i)));
      [reflexivity | destruct i; reflexivity].
  - apply (execute_with_number c _
             [TId "select"; TStar; TId "from"; TId "quran"; TId "where";
              TId "sura_number"; TEq] i
             (mk_select AllColumns (Cmp ColSuraNumber OpEq i)));
      [reflexivity | destruct i; reflexivity].
  - apply (execute_with_number c _
             [TId "select"; TStar; TId "from"; TId "quran"; TId "where";
              TId "hizbquarter"; TEq] i
             (mk_select AllColumns (Cmp ColHizbQuarter OpEq i)));
      [reflexivity | destruct i; reflexivity].
  - apply (execute_with_number c _
             [TId "select"; TStar; TId "from"; TId "quran"; TId "where";
              TId "hizb"; TEq] i
             (mk_select AllColumns (Cmp ColHizb OpEq i)));
      [reflexivity | destruct i; reflexivity].
  - apply (execute_with_number c _
             [TId "select"; TStar; TId "from"; TId "quran"; TId "where";
              TId "juz"; TEq] i
             (mk_select AllColumns (Cmp ColJuz OpEq i)));
      [reflexivity | destruct i; reflexivity].
Qed.

Lemma selector_run (t i : Z) (s : quran_mgr) (c : sqlite_cursor) :
  cursor s = Some c ->
  selector t i s = get_text (selected t i c s).
Proof.
  intros Hc. unfold selected.
  pose proof (execute_category_statement c t i) as Hex.
  revert Hex. unfold unit_rows. by_tag t; intros Hex;
    match goal with
    | |- ?f i s = _ => unfold f
    end;
    rewrite !bind_modify; unfold bind at 1, execute_fetchall;
    simpl cursor; rewrite Hc;
    match type of Hex with
    | cursor_execute c ?q [] = _ =>
        change (cursor_execute c q []) with (cursor_execute c q []) in Hex
    end;
    rewrite Hex; simpl lift; cbv iota; unfold bind at 1; simpl lift;
    cbv iota; rewrite bind_modify; reflexivity.
Qed.

Lemma selector_without_cursor (t i : Z) (s : quran_mgr) :
  cursor s = None ->
  selector t i s
  = Raise AttributeError
      (clamp_current_pos
         (set_type (dispatch_tag t)
            (set_max_pos (category_max (dispatch_tag t))
               (set_current_pos i s)))).
Proof.
  intros Hc. by_tag t;
    match goal with
    | |- ?f i s = _ => unfold f
    end;
    rewrite !bind_modify; unfold bind at 1, execute_fetchall;
    simpl cursor; rewrite Hc; reflexivity.
Qed.

Lemma get_text_view (s : quran_mgr) :
  view (state_of (get_text s))
  = match data_list s with
    | [] => view s
    | _ :: _ =>
        (show_ayah_number s, aya_to_line s, nav_fields s, data_list s,
         option_map table (cursor s),
         rendering (show_ayah_number s) (aya_to_line s) (data_list s),
         Some (spans_from (show_ayah_number s) (aya_to_line s) 0
                 (data_list s)))
    end.
Proof.
  unfold get_text, rendering.
  destruct (data_list s) as [| a l] eqn:E; [reflexivity |].
  rewrite get_text_loop_spec. unfold view. simpl. rewrite E. reflexivity.
Qed.

Lemma get_text_result (s : quran_mgr) :
  result_of (get_text s)
  = Ok (rendering (show_ayah_number s) (aya_to_line s) (data_list s)).
Proof.
  unfold get_text, rendering.
  destruct (data_list s) as [| a l] eqn:E; [reflexivity |].
  rewrite get_text_loop_spec. reflexivity.
Qed.

Lemma dispatch_tag_idem (t : Z) : dispatch_tag (dispatch_tag t) = dispatch_tag t.
Proof. by_tag t; reflexivity. Qed.

Lemma goto_run (i : Z) (s : quran_mgr) (c : sqlite_cursor) :
  cursor s = Some c ->
  i <= max_pos s ->
  goto i s = get_text (selected (type s) i c (set_current_pos i s)).
Proof.
  intros Hc Hi. unfold goto.
  replace (i >? max_pos s) with false
    by (symmetry; rewrite Z.gtb_ltb; apply Z.ltb_ge; lia).
  rewrite bind_modify, get_by_type_selector.
  apply (selector_run (type s) i (set_current_pos i s) c). exact Hc.
Qed.

Lemma goto_unit (i : Z) (s : quran_mgr) (c : sqlite_cursor) :
  cursor s = Some c ->
  i <= max_pos s ->
  nav_fields (state_of (goto i s))
    = ((if i >? category_max (dispatch_tag (type s))
        then category_max (dispatch_tag (type s)) else i),
       category_max (dispatch_tag (type s)), dispatch_tag (type s)) /\
  data_list (state_of (goto i s))
    = unit_rows (dispatch_tag (type s)) i (table c) /\
  returned (goto i s)
    = Some (rendering (show_ayah_number s) (aya_to_line s)
              (unit_rows (dispatch_tag (type s)) i (table c))).
Proof.
  intros Hc Hi. rewrite (goto_run i s c Hc Hi).
  split; [| split].
  - rewrite keeps_nav_get_text. reflexivity.
  - rewrite get_text_keeps_data_list. reflexivity.
  - rewrite get_text_returns. reflexivity.
Qed.

(** X1.  [goto(i)] with [i] not above [max_pos] on a loaded navigator.
    The type tag picks the category (0 to 3 their own, any other tag the
    last one); the call stores the rows of the table whose coordinate of
    that category equals [i], in table order, returns their rendering,
    leaves [i] cut down to the category maximum in [current_pos], the
    category maximum in [max_pos] and the category in [type], and sends
    the one statement of that category for [i]. *)
Theorem goto_renders_unit (i : Z) (s : quran_mgr) (c : sqlite_cursor) :
  cursor s = Some c ->
  i <= max_pos s ->
  let t := dispatch_tag (type s) in
  let rows := unit_rows t i (table c) in
  nav_fields (state_of (goto i s))
    = ((if i >? category_max t then category_max t else i),
       category_max t, t) /\
  data_list (state_of (goto i s)) = rows /\
  returned (goto i s)
    = Some (rendering (show_ayah_number s) (aya_to_line s) rows) /\
  statements (state_of (goto i s))
    = executed c ++ [(category_statement t i, [])].
Proof.
  intros Hc Hi t rows. rewrite (goto_run i s c Hc Hi).
  split; [| split; [| split]].
  - rewrite keeps_nav_get_text. reflexivity.
  - rewrite get_text_keeps_data_list. reflexivity.
  - rewrite get_text_returns. reflexivity.
  - unfold statements. rewrite get_text_keeps_cursor. reflexivity.
Qed.

Lemma goto_renders_unit_witness :
  nav_fields (state_of (goto 2 at_first_surah)) = (2, 114, 1) /\
  map r_number (data_list (state_of (goto 2 at_first_surah))) = [8; 9; 10].
Proof.
  destruct (goto_renders_unit 2 at_first_surah
              (logged "SELECT * FROM quran WHERE sura_number = 1"
                 (mk_cursor sample_db [])))
    as (Hnav & Hrows & _ & _).
  - reflexivity.
  - apply Z.leb_le. vm_compute. reflexivity.
  - rewrite Hnav, Hrows. split; reflexivity.
Defined.

Lemma next_is_goto (s : quran_mgr) :
  next s = goto (current_pos s + 1) s.
Proof.
  unfold next, goto.
  destruct (Z.leb_spec (max_pos s) (current_pos s)) as [H | H].
  - replace (current_pos s >=? max_pos s) with true
      by (symmetry; apply Z.geb_le; lia).
    replace (current_pos s + 1 >? max_pos s) with true
      by (symmetry; apply Z.gtb_lt; lia).
    reflexivity.
  - replace (current_pos s >=? max_pos s) with false
      by (symmetry; rewrite Z.geb_leb; apply Z.leb_gt; lia).
    replace (current_pos s + 1 >? max_pos s) with false
      by (symmetry; rewrite Z.gtb_ltb; apply Z.ltb_ge; lia).
    rewrite !bind_modify. reflexivity.
Qed.

Lemma back_is_goto (s : quran_mgr) :
  1 < current_pos s -> current_pos s - 1 <= max_pos s ->
  back s = goto (current_pos s - 1) s.
Proof.
  intros H1 H2. unfold back, goto.
  replace (current_pos s <=? 1) with false
    by (symmetry; apply Z.leb_gt; lia).
  replace (current_pos s - 1 >? max_pos s) with false
    by (symmetry; rewrite Z.gtb_ltb; apply Z.ltb_ge; lia).
  rewrite !bind_modify. reflexivity.
Qed.

(** X2.  [next] is [goto] of the next index, in every state; [back] is
    [goto] of the previous index whenever the current index is above 1 and
    not more than one step above [max_pos]. *)
Theorem steps_are_gotos (s : quran_mgr) :
  next s = goto (current_pos s + 1) s /\
  (1 < current_pos s -> current_pos s - 1 <= max_pos s ->
   back s = goto (current_pos s - 1) s).
Proof.
  split.
  - apply next_is_goto.
  - intros H1 H2. apply back_is_goto; assumption.
Qed.

Lemma steps_are_gotos_witness :
  back (state_of (goto 2 at_first_surah))
  = goto 1 (state_of (goto 2 at_first_surah)).
Proof.
  assert (H : current_pos (state_of (goto 2 at_first_surah)) - 1 = 1)
    by (vm_compute; reflexivity).
  rewrite <- H.
  apply (steps_are_gotos (state_of (goto 2 at_first_surah))).
  - apply Z.ltb_lt. vm_compute. reflexivity.
  - apply Z.leb_le. vm_compute. reflexivity.
Defined.

(** X3.  One step forward and one step back.  On a loaded navigator whose
    [max_pos] is the maximum of its category, with the current index at
    least 1 and below that maximum, [next()] followed by [back()] ends at
    the index it started from, in the same category, with the rows of
    that unit stored and their rendering returned. *)
Theorem next_then_back (s : quran_mgr) (c : sqlite_cursor) :
  cursor s = Some c ->
  max_pos s = category_max (dispatch_tag (type s)) ->
  1 <= current_pos s < max_pos s ->
  let t := dispatch_tag (type s) in
  let rows := unit_rows t (current_pos s) (table c) in
  nav_fields (state_of (back (state_of (next s))))
    = (current_pos s, max_pos s, t) /\
  data_list (state_of (back (state_of (next s)))) = rows /\
  returned (back (state_of (next s)))
    = Some (rendering (show_ayah_number s) (aya_to_line s) rows).
Proof.
  intros Hc Hmax Hcur t rows.
  rewrite (next_is_goto s).
  rewrite (goto_run (current_pos s + 1) s c Hc) by lia.
  set (s1 := state_of (get_text _)).
  assert (Hnav1 : nav_fields s1
                  = (current_pos s + 1, category_max t, t)).
  { unfold s1. rewrite keeps_nav_get_text. unfold selected, nav_fields.
    simpl. fold t. unfold clamp_current_pos. simpl.
    replace (current_pos s + 1 >? category_max t) with false
      by (symmetry; rewrite Z.gtb_ltb; apply Z.ltb_ge; unfold t; lia).
    reflexivity. }
  unfold nav_fields in Hnav1. injection Hnav1 as Hcur1 Hmax1 Htype1.
  unfold t in Hmax1. rewrite <- Hmax in Hmax1.
  assert (Hc1 : cursor s1
                = Some (logged (category_statement t (current_pos s + 1)) c)).
  { unfold s1. rewrite get_text_keeps_cursor. reflexivity. }
  assert (Hflags : show_ayah_number s1 = show_ayah_number s
                   /\ aya_to_line s1 = aya_to_line s).
  { pose proof (get_text_view
                  (selected (type s) (current_pos s + 1) c
                     (set_current_pos (current_pos s + 1) s))) as Hv.
    fold s1 in Hv.
    destruct (data_list _) in Hv; unfold view in Hv;
      injection Hv as -> -> _ _ _ _ _; split; reflexivity. }
  destruct Hflags as [Hshow Hline].
  rewrite (back_is_goto s1) by lia.
  destruct (goto_unit (current_pos s1 - 1) s1 _ Hc1)
    as (Hnav & Hrows & Hret); [lia |].
  rewrite Htype1 in Hnav, Hrows, Hret.
  unfold t in Hnav, Hrows, Hret.
  rewrite dispatch_tag_idem in Hnav, Hrows, Hret.
  fold t in Hnav, Hrows, Hret.
  replace (current_pos s1 - 1) with (current_pos s) in * by lia.
  simpl table in Hrows, Hret. rewrite Hshow, Hline in Hret.
  split; [| split; assumption].
  rewrite Hnav.
  replace (current_pos s >? category_max t) with false
    by (symmetry; rewrite Z.gtb_ltb; apply Z.ltb_ge; unfold t; lia).
  rewrite Hmax. reflexivity.
Qed.

Lemma next_then_back_witness :
  nav_fields (state_of (back (state_of (next at_first_surah))))
    = (1, 114, 1) /\
  data_list (state_of (back (state_of (next at_first_surah))))
    = data_list at_first_surah.
Proof.
  destruct (next_then_back at_first_surah
              (logged "SELECT * FROM quran WHERE sura_number = 1"
                 (mk_cursor sample_db [])))
    as (Hnav & Hrows & _).
  - reflexivity.
  - reflexivity.
  - split; [apply Z.leb_le | apply Z.ltb_lt]; vm_compute; reflexivity.
  - rewrite Hnav, Hrows. split; reflexivity.
Defined.

(** ** A selector called twice *)

Lemma selected_view (t i : Z) (c : sqlite_cursor) (s : quran_mgr) :
  view (selected t i c s)
  = (show_ayah_number s, aya_to_line s,
     ((if i >? category_max (dispatch_tag t)
       then category_max (dispatch_tag t) else i),
      category_max (dispatch_tag t), dispatch_tag t),
     unit_rows (dispatch_tag t) i (table c), Some (table c),
     text s, ayah_data s).
Proof. reflexivity. Qed.

Lemma get_text_flags (s : quran_mgr) :
  show_ayah_number (state_of (get_text s)) = show_ayah_number s /\
  aya_to_line (state_of (get_text s)) = aya_to_line s.
Proof.
  unfold get_text.
  destruct (data_list s) as [| a l]; [split; reflexivity |].
  destruct (get_text_loop _ _ _ _ _ _) as [[t p] d]. split; reflexivity.
Qed.

Lemma get_text_stored (s : quran_mgr) :
  (text (state_of (get_text s)), ayah_data (state_of (get_text s)))
  = match data_list s with
    | [] => (text s, ayah_data s)
    | _ :: _ =>
        (rendering (show_ayah_number s) (aya_to_line s) (data_list s),
         Some (spans_from (show_ayah_number s) (aya_to_line s) 0
                 (data_list s)))
    end.
Proof.
  unfold get_text, rendering.
  destruct (data_list s) as [| a l] eqn:E; [reflexivity |].
  rewrite get_text_loop_spec. reflexivity.
Qed.

Lemma selector_twice (t i : Z) (s : quran_mgr) :
  result_of (selector t i (state_of (selector t i s)))
    = result_of (selector t i s) /\
  view (state_of (selector t i (state_of (selector t i s))))
    = view (state_of (selector t i s)).
Proof.
  destruct (cursor s) as [c |] eqn:Hc.
  - rewrite (selector_run t i s c Hc).
    set (S := selected t i c s).
    set (s1 := state_of (get_text S)).
    assert (Hc1 : cursor s1
                  = Some (logged (category_statement (dispatch_tag t) i) c)).
    { unfold s1. rewrite get_text_keeps_cursor. reflexivity. }
    rewrite (selector_run t i s1 _ Hc1).
    destruct (get_text_flags S) as [Hshow Hline].
    pose proof (get_text_stored S) as Hst.
    pose proof (get_text_view S) as Hv1.
    fold s1 in Hshow, Hline, Hst, Hv1.
    rewrite !get_text_result, get_text_view, Hv1.
    change (view S) with (view (selected t i c s)).
    rewrite !selected_view.
    change (show_ayah_number (selected t i _ s1))
      with (show_ayah_number s1).
    change (aya_to_line (selected t i _ s1)) with (aya_to_line s1).
    change (data_list (selected t i _ s1))
      with (unit_rows (dispatch_tag t) i (table c)).
    change (nav_fields (selected t i _ s1)) with (nav_fields S).
    change (cursor (selected t i _ s1))
      with (Some (logged (category_statement (dispatch_tag t) i)
                    (logged (category_statement (dispatch_tag t) i) c))).
    change (show_ayah_number S) with (show_ayah_number s) in *.
    change (aya_to_line S) with (aya_to_line s) in *.
    change (data_list S)
      with (unit_rows (dispatch_tag t) i (table c)) in *.
    change (text S) with (text s) in *.
    change (ayah_data S) with (ayah_data s) in *.
    change (cursor S)
      with (Some (logged (category_statement (dispatch_tag t) i) c)).
    simpl table. simpl option_map.
    rewrite Hshow, Hline.
    destruct (unit_rows (dispatch_tag t) i (table c)) as [| r rows].
    + injection Hst as -> ->. split; reflexivity.
    + split; reflexivity.
  - rewrite (selector_without_cursor t i s Hc).
    rewrite selector_without_cursor by exact Hc.
    split; reflexivity.
Qed.

Lemma selector_names :
  selector 0 = get_page /\ selector 1 = get_surah /\
  selector 2 = get_quarter /\ selector 3 = get_hizb /\
  selector 4 = get_juzz.
Proof. repeat split; reflexivity. Qed.

(** X4.  Calling a selector twice in a row with the same index gives the
    same result as calling it once: the second call returns the same text
    (or raises the same exception) and leaves the same state, but for the
    one more statement the cursor has been sent. *)
Theorem selector_called_twice (f : Z -> M pystr) (i : Z) (s : quran_mgr) :
  In f [get_page; get_surah; get_quarter; get_hizb; get_juzz] ->
  result_of (f i (state_of (f i s))) = result_of (f i s) /\
  view (state_of (f i (state_of (f i s)))) = view (state_of (f i s)).
Proof.
  intros Hf.
  destruct selector_names as (E0 & E1 & E2 & E3 & E4).
  destruct Hf as [<- | [<- | [<- | [<- | [<- | []]]]]].
  - rewrite <- E0. exact (selector_twice 0 i s).
  - rewrite <- E1. exact (selector_twice 1 i s).
  - rewrite <- E2. exact (selector_twice 2 i s).
  - rewrite <- E3. exact (selector_twice 3 i s).
  - rewrite <- E4. exact (selector_twice 4 i s).
Qed.

Lemma selector_called_twice_witness :
  result_of (get_surah 2 (state_of (get_surah 2 sample_mgr)))
    = result_of (get_surah 2 sample_mgr) /\
  view (state_of (get_surah 2 (state_of (get_surah 2 sample_mgr))))
    = view (state_of (get_surah 2 sample_mgr)).
Proof.
  apply (selector_called_twice get_surah 2 sample_mgr).
  simpl. right. left. reflexivity.
Defined.

(** ** The index against the text *)

Lemma emitted_cons (show line : bool) (ayah : row) (rest : list row) :
  emitted show line (ayah :: rest)
  = emit_ayah show line ayah ++ emitted show line rest.
Proof. reflexivity. Qed.

(** The spans of a verse list starting at [start] contain exactly the
    offsets from [start] up to the length of the emitted text. *)
Lemma spans_from_cover (show line : bool) (data : list row) :
  forall (start o : Z),
    (exists e, In e (spans_from show line start data) /\ in_span o e)
    <-> start <= o < start + Z.of_nat (List.length (emitted show line data)).
Proof.
  induction data as [| ayah rest IH]; intros start o.
  - simpl. split; [intros (e & [] & _) | lia].
  - rewrite emitted_cons, List.length_app, Nat2Z.inj_add.
    pose proof (emit_ayah_nonempty show line ayah) as Hn.
    simpl spans_from.
    set (n := Z.of_nat (List.length (emit_ayah show line ayah))) in *.
    specialize (IH (start + n) o).
    split.
    + intros (e & [<- | Hin] & Ho).
      * unfold in_span, span_start, span_end in Ho. simpl in Ho. lia.
      * assert (H : start + n <= o
                    < start + n
                      + Z.of_nat (List.length (emitted show line rest)))
          by (apply IH; exists e; split; assumption).
        lia.
    + intros Ho.
      destruct (Z.ltb_spec o (start + n)) as [Hlt | Hge].
      * exists (r_number ayah, start, start + n - 1).
        split; [left; reflexivity |].
        unfold in_span, span_start, span_end. simpl. lia.
      * destruct IH as [_ IH]. destruct IH as (e & Hin & He); [lia |].
        exists e. split; [right; exact Hin | exact He].
Qed.

Lemma ordered_spans_disjoint (idx : AyahData.t) :
  ForallOrdPairs (fun e1 e2 => span_end e1 < span_start e2) idx ->
  forall o e1 e2,
    In e1 idx -> In e2 idx -> in_span o e1 -> in_span o e2 -> e1 = e2.
Proof.
  intros Hord. induction Hord as [| a l Ha _ IH]; intros o e1 e2 H1 H2 Ho1 Ho2.
  - destruct H1.
  - unfold in_span in *. rewrite Forall_forall in Ha.
    destruct H1 as [<- | H1], H2 as [<- | H2].
    + reflexivity.
    + specialize (Ha _ H2). simpl in Ha. lia.
    + specialize (Ha _ H1). simpl in Ha. lia.
    + exact (IH o e1 e2 H1 H2 Ho1 Ho2).
Qed.

(** X5.  After [get_text] on a non-empty verse list, the stored index
    owns every offset of the untrimmed text exactly once and nothing
    else: an offset lies in a span of the index just when it is at least
    0 and below the length of that text, and then in one span only. *)
Theorem index_covers_text (s : quran_mgr) :
  data_list s <> [] ->
  exists idx : AyahData.t,
    ayah_data (state_of (get_text s)) = Some idx /\
    (forall o,
       (exists e, In e idx /\ in_span o e)
       <-> 0 <= o < Z.of_nat (List.length
                                (emitted (show_ayah_number s) (aya_to_line s)
                                   (data_list s)))) /\
    (forall o e1 e2,
       In e1 idx -> In e2 idx -> in_span o e1 -> in_span o e2 -> e1 = e2).
Proof.
  intros Hne.
  exists (spans_from (show_ayah_number s) (aya_to_line s) 0 (data_list s)).
  split; [| split].
  - pose proof (get_text_stored s) as H.
    destruct (data_list s) as [| a l] eqn:E; [contradiction |].
    injection H as _ H. exact H.
  - intros o. apply (spans_from_cover _ _ (data_list s) 0 o).
  - apply ordered_spans_disjoint.
    exact (proj2 (contiguous_ordered _ 0 (spans_from_contiguous _ _ _ 0))).
Qed.

Lemma index_covers_text_witness :
  exists idx : AyahData.t,
    ayah_data (state_of (get_text at_first_surah)) = Some idx /\
    exists e, In e idx /\ in_span 60 e.
Proof.
  assert (Hne : data_list at_first_surah <> []).
  { intros H. vm_compute in H. discriminate H. }
  destruct (index_covers_text at_first_surah Hne) as (idx & Hidx & Hcov & _).
  exists idx. split; [exact Hidx |].
  apply Hcov. split; [lia |].
  apply Z.ltb_lt. vm_compute. reflexivity.
Defined.

(** ** The final trimming against the index *)

Lemma lstrip_length (c : char) (s : pystr) :
  (List.length (lstrip c s) <= List.length s)%nat.
Proof.
  induction s as [| x s IH]; simpl; [lia |].
  destruct (x =? c)%N; simpl; lia.
Qed.

Lemma lstrip_snoc (c : char) (x : pystr) :
  lstrip c (x ++ [c])
  = match lstrip c x with
    | [] => []
    | y :: ys => (y :: ys) ++ [c]
    end.
Proof.
  induction x as [| a x IH]; simpl.
  - rewrite N.eqb_refl. reflexivity.
  - destruct (a =? c)%N; [exact IH | reflexivity].
Qed.

(** A text that ends with [c] loses at least that character. *)
Lemma strip_snoc_length (c : char) (x : pystr) :
  (List.length (strip c (x ++ [c])) <= List.length x)%nat.
Proof.
  unfold strip. rewrite length_rev, lstrip_snoc.
  pose proof (lstrip_length c x) as Hx.
  destruct (lstrip c x) as [| y ys]; [simpl; lia |].
  rewrite rev_app_distr. simpl rev at 1. simpl app.
  simpl lstrip. rewrite N.eqb_refl.
  pose proof (lstrip_length c (rev ys ++ [y])) as Hr.
  rewrite List.length_app, length_rev in Hr. simpl in Hr, Hx. lia.
Qed.

(** A text that neither begins nor ends with [c] is left as it is. *)
Lemma strip_unchanged (c : char) (s : pystr) :
  lstrip c s = s -> lstrip c (rev s) = rev s -> strip c s = s.
Proof.
  intros H1 H2. unfold strip. rewrite H1, H2. apply rev_involutive.
Qed.

Lemma emitted_ends_with_separator (show line : bool) (data : list row) :
  data <> [] ->
  exists x,
    emitted show line data = x ++ [if line then newline else space].
Proof.
  induction data as [| ayah rest IH]; intros Hne; [contradiction |].
  rewrite emitted_cons.
  destruct rest as [| b rest].
  - destruct (emit_ayah_suffix show line ayah) as [body Hb].
    rewrite Hb. unfold ayah_suffix, emitted. simpl.
    exists (body ++ (if show
                     then of_string
                            (" (" ++ str_Z (r_numberInSurah ayah) ++ ")")
                     else [])).
    rewrite List.app_nil_r, <- !List.app_assoc.
    destruct line; reflexivity.
  - destruct IH as [x Hx]; [discriminate |].
    exists (emit_ayah show line ayah ++ x).
    rewrite Hx, List.app_assoc. reflexivity.
Qed.

Lemma spans_from_last (show line : bool) (data : list row) :
  forall start d,
    data <> [] ->
    span_end (last (spans_from show line start data) d)
    = start + Z.of_nat (List.length (emitted show line data)) - 1.
Proof.
  induction data as [| ayah rest IH]; intros start d Hne; [contradiction |].
  rewrite emitted_cons, List.length_app, Nat2Z.inj_add.
  destruct rest as [| b rest].
  - simpl. unfold span_end. simpl. lia.
  - change (spans_from show line start (ayah :: b :: rest))
      with ((r_number ayah, start,
             start + Z.of_nat (List.length (emit_ayah show line ayah)) - 1)
            :: spans_from show line
                 (start + Z.of_nat (List.length (emit_ayah show line ayah)))
                 (b :: rest)).
    remember (b :: rest) as tail_rows eqn:Et.
    assert (Hsp : spans_from show line
                    (start
                     + Z.of_nat (List.length (emit_ayah show line ayah)))
                    tail_rows <> []).
    { subst tail_rows. discriminate. }
    destruct (spans_from show line _ tail_rows) as [| e es] eqn:Es;
      [contradiction |].
    change (last (?a :: e :: es) d) with (last (e :: es) d).
    rewrite <- Es, IH by (subst tail_rows; discriminate).
    lia.
Qed.

Lemma spans_from_nonempty (show line : bool) (start : Z) (b : row)
    (rest : list row) :
  spans_from show line start (b :: rest) <> [].
Proof. discriminate. Qed.

Lemma spans_from_last_verse (show line : bool) (data : list row) :
  forall start d d',
    data <> [] ->
    verse_of (last (spans_from show line start data) d)
    = r_number (last data d').
Proof.
  induction data as [| ayah rest IH]; intros start d d' Hne;
    [contradiction |].
  destruct rest as [| b rest]; [reflexivity |].
  change (last (ayah :: b :: rest) d') with (last (b :: rest) d').
  rewrite <- (IH (start + Z.of_nat (List.length (emit_ayah show line ayah)))
                d d') by discriminate.
  change (spans_from show line start (ayah :: b :: rest))
    with ((r_number ayah, start,
           start + Z.of_nat (List.length (emit_ayah show line ayah)) - 1)
          :: spans_from show line
               (start + Z.of_nat (List.length (emit_ayah show line ayah)))
               (b :: rest)).
  pose proof (spans_from_nonempty show line
                (start + Z.of_nat (List.length (emit_ayah show line ayah)))
                b rest) as Hsp.
  destruct (spans_from show line _ (b :: rest)) as [| e es];
    [contradiction | reflexivity].
Qed.

(** X6.  With one verse per line ([aya_to_line]) and a non-empty verse
    list, the index stored by [get_text] reaches beyond the text it
    returns and stores: the text is trimmed after the spans are recorded,
    it loses at least its final line break, and the end offset of the last
    span is no offset of the returned text. *)
Theorem index_overhangs_trimmed_text (s : quran_mgr) :
  data_list s <> [] ->
  aya_to_line s = true ->
  exists (blob : pystr) (idx : AyahData.t),
    get_text s
    = Return blob (set_ayah_data (Some idx) (set_text blob s)) /\
    Z.of_nat (List.length blob) <= span_end (last idx (0, 0, 0)) /\
    verse_of (last idx (0, 0, 0))
    = r_number (last (data_list s) (mk_row [] 0 [] 0 0 0 0 0 0)).
Proof.
  intros Hne Hline.
  set (show := show_ayah_number s).
  exists (strip newline (emitted show true (data_list s))),
         (spans_from show true 0 (data_list s)).
  split; [| split].
  - unfold get_text. fold show. rewrite Hline.
    destruct (data_list s) as [| a l] eqn:E; [contradiction |].
    rewrite get_text_loop_spec. reflexivity.
  - rewrite (spans_from_last show true (data_list s) 0 _ Hne).
    destruct (emitted_ends_with_separator show true (data_list s) Hne)
      as [x Hx].
    rewrite Hx, List.length_app.
    pose proof (strip_snoc_length newline x) as Hs.
    simpl List.length. lia.
  - apply spans_from_last_verse. exact Hne.
Qed.

Lemma index_overhangs_trimmed_text_witness :
  exists (blob : pystr) (idx : AyahData.t),
    returned (get_text line_at_first_surah) = Some blob /\
    ayah_data (state_of (get_text line_at_first_surah)) = Some idx /\
    Z.of_nat (List.length blob) <= span_end (last idx (0, 0, 0)).
Proof.
  destruct (index_overhangs_trimmed_text line_at_first_surah)
    as (blob & idx & Hget & Hover & _).
  - intros H. vm_compute in H. discriminate H.
  - reflexivity.
  - exists blob, idx. rewrite Hget. repeat split. exact Hover.
Defined.

Lemma contiguous_valid (idx : AyahData.t) :
  forall start,
    contiguous_from start idx ->
    Forall (fun e => span_start e <= span_end e) idx.
Proof.
  induction idx as [| e rest IH]; intros start H; [constructor |].
  destruct H as (_ & Hle & Hrest).
  constructor; [exact Hle | exact (IH _ Hrest)].
Qed.

Lemma lstrip_head (c : char) (s : pystr) :
  hd_error s <> Some c -> lstrip c s = s.
Proof.
  destruct s as [| x s]; [reflexivity |].
  simpl. intros H. destruct (N.eqb_spec x c) as [-> | Hne];
    [contradiction H; reflexivity | reflexivity].
Qed.

(** X7.  Without one verse per line, on a non-empty verse list whose
    emitted text does not begin with a line break, [get_text] returns the
    emitted text untrimmed, and every span of the stored index lies within
    the returned text. *)
Theorem index_within_returned_text (s : quran_mgr) :
  data_list s <> [] ->
  aya_to_line s = false ->
  hd_error (emitted (show_ayah_number s) false (data_list s))
    <> Some newline ->
  exists idx : AyahData.t,
    get_text s
    = Return (emitted (show_ayah_number s) false (data_list s))
        (set_ayah_data (Some idx)
           (set_text (emitted (show_ayah_number s) false (data_list s)) s))
    /\
    Forall
      (fun e =>
         0 <= span_start e <= span_end e /\
         span_end e
         < Z.of_nat (List.length
                       (emitted (show_ayah_number s) false (data_list s))))
      idx.
Proof.
  intros Hne Hline Hhd.
  set (show := show_ayah_number s) in *.
  set (raw := emitted show false (data_list s)) in *.
  exists (spans_from show false 0 (data_list s)).
  assert (Hstrip : strip newline raw = raw).
  { apply strip_unchanged.
    - apply lstrip_head. exact Hhd.
    - destruct (emitted_ends_with_separator show false (data_list s) Hne)
        as [x Hx].
      fold raw in Hx. rewrite Hx, rev_app_distr. reflexivity. }
  split.
  - unfold get_text. fold show. rewrite Hline.
    destruct (data_list s) as [| a l] eqn:E; [contradiction |].
    rewrite get_text_loop_spec. simpl app. fold raw. rewrite Hstrip.
    reflexivity.
  - pose proof (spans_from_contiguous show false (data_list s) 0) as Hc.
    pose proof (contiguous_valid _ _ Hc) as Hv.
    rewrite Forall_forall in Hv |- *.
    intros e He. specialize (Hv e He).
    assert (H : 0 <= span_end e < 0 + Z.of_nat (List.length raw)).
    { apply (spans_from_cover show false (data_list s) 0 (span_end e)).
      exists e. split; [exact He | unfold in_span; lia]. }
    assert (H' : 0 <= span_start e < 0 + Z.of_nat (List.length raw)).
    { apply (spans_from_cover show false (data_list s) 0 (span_start e)).
      exists e. split; [exact He | unfold in_span; lia]. }
    lia.
Qed.

Lemma index_within_returned_text_witness :
  exists idx : AyahData.t,
    ayah_data (state_of (get_text at_first_surah)) = Some idx /\
    Forall (fun e => span_end e
                     < Z.of_nat (List.length (text (state_of
                                                     (get_text at_first_surah)))))
      idx.
Proof.
  destruct (index_within_returned_text at_first_surah)
    as (idx & Hget & Hin).
  - intros H. vm_compute in H. discriminate H.
  - reflexivity.
  - intros H. vm_compute in H. discriminate H.
  - exists idx. rewrite Hget. split; [reflexivity |].
    eapply Forall_impl; [| exact Hin].
    intros e (_ & He). exact He.
Defined.

(* ================================================================= *)
(** ** More of get_range *)

(** The statement for an open range selects the rows from the bound on. *)
Lemma execute_from (c : sqlite_cursor) (a : Z) :
  cursor_execute c ("SELECT * FROM quran WHERE  number >= " ++ str_Z a) []
  = (logged ("SELECT * FROM quran WHERE  number >= " ++ str_Z a) c,
     Ok (Rows (filter (fun r => a <=? r_number r) (table c)))).
Proof.
  apply (execute_with_number c _
           [TId "select"; TStar; TId "from"; TId "quran"; TId "where";
            TId "number"; TGe] a
           (mk_select AllColumns (Cmp ColNumber OpGe a)));
    [reflexivity | destruct a; reflexivity].
Qed.

(** Sending a statement that selects [rows] and rendering them. *)
Lemma fetch_and_render_run (sql : string) (rows : list row)
    (s : quran_mgr) (c : sqlite_cursor) :
  cursor s = Some c ->
  cursor_execute c sql [] = (logged sql c, Ok (Rows rows)) ->
  (result <- execute_fetchall sql ;;
   rows <- lift (full_rows result) ;;
   modify (set_data_list rows) ;;
   get_text) s
  = get_text (set_data_list rows (set_cursor (Some (logged sql c)) s)).
Proof.
  intros Hc Hex. unfold bind at 1, execute_fetchall. rewrite Hc, Hex.
  simpl lift. cbv iota. unfold bind at 1. simpl lift. cbv iota.
  rewrite bind_modify. reflexivity.
Qed.

(** Without chapters the two blocks leave the verse arguments alone. *)
Lemma get_range_without_chapters
    (from_surah from_ayah to_surah to_ayah : pyval) (s : quran_mgr) :
  py_int from_surah < 1 -> py_int to_surah < 1 ->
  get_range from_surah from_ayah to_surah to_ayah s
  = (result <- execute_fetchall (range_statement from_ayah to_ayah) ;;
     rows <- lift (full_rows result) ;;
     modify (set_data_list rows) ;;
     get_text)
      (set_type 5 (set_max_pos (-1) (set_current_pos (-1) s))).
Proof.
  intros Hf Ht. unfold get_range. rewrite !bind_modify.
  unfold check_from_surah, check_to_surah.
  replace (py_int from_surah >=? 1) with false
    by (symmetry; rewrite Z.geb_leb; apply Z.leb_gt; lia).
  replace (py_int to_surah >=? 1) with false
    by (symmetry; rewrite Z.geb_leb; apply Z.leb_gt; lia).
  rewrite !bind_ret. reflexivity.
Qed.

(** X8.  [get_range] with global verse numbers and no chapter.  With
    both chapters absent (or below 1), an upper bound [b] other than 0 and
    a lower bound that is an [int] or left at [False], the call stores the
    rows whose global number lies between the lower bound, 1 when it was
    left at [False], and [b], both included, returns their rendering and
    ends in the range state. *)
Theorem get_range_by_numbers
    (from_surah from_ayah to_surah : pyval) (b : Z) (s : quran_mgr)
    (c : sqlite_cursor) :
  cursor s = Some c ->
  py_int from_surah < 1 -> py_int to_surah < 1 ->
  from_ayah <> PyBool true ->
  b <> 0 ->
  let rows :=
    filter (fun r => (lower_bound from_ayah <=? r_number r)
                     && (r_number r <=? b)) (table c) in
  data_list (state_of (get_range from_surah from_ayah to_surah (PyInt b) s))
    = rows /\
  returned (get_range from_surah from_ayah to_surah (PyInt b) s)
    = Some (rendering (show_ayah_number s) (aya_to_line s) rows) /\
  nav_fields (state_of (get_range from_surah from_ayah to_surah (PyInt b) s))
    = (-1, -1, 5).
Proof.
  intros Hc Hf Ht Hfrom Hb rows.
  rewrite (get_range_without_chapters _ _ _ _ s Hf Ht).
  assert (Hq : range_statement from_ayah (PyInt b)
               = ("SELECT * FROM quran WHERE number BETWEEN "
                    ++ str_Z (lower_bound from_ayah)
                    ++ " AND " ++ str_Z b)%string).
  { unfold range_statement, truthy, lower_bound. simpl py_int.
    replace (b =? 0) with false by (symmetry; apply Z.eqb_neq; exact Hb).
    simpl negb. cbv iota.
    destruct from_ayah as [[|] | a]; [contradiction Hfrom | ..]; reflexivity. }
  rewrite Hq.
  rewrite (fetch_and_render_run _ rows
             (set_type 5 (set_max_pos (-1) (set_current_pos (-1) s))) c Hc
             (execute_between c _ b)).
  split; [| split].
  - rewrite get_text_keeps_data_list. reflexivity.
  - rewrite get_text_returns. reflexivity.
  - rewrite keeps_nav_get_text. reflexivity.
Qed.

Lemma get_range_by_numbers_witness :
  map r_number
    (data_list (state_of (get_range (PyBool false) (PyBool false)
                            (PyBool false) (PyInt 3) sample_mgr)))
  = [1; 2; 3].
Proof.
  destruct (get_range_by_numbers (PyBool false) (PyBool false) (PyBool false)
              3 sample_mgr (mk_cursor sample_db []))
    as (Hrows & _ & _).
  - reflexivity.
  - simpl. lia.
  - simpl. lia.
  - discriminate.
  - discriminate.
  - rewrite Hrows. reflexivity.
Defined.

(** X9.  [get_range] with a lower bound only.  With both chapters absent
    (or below 1), [to_ayah] left at [False] and a lower bound [a] other
    than 0, the call stores every row whose global number is at least [a],
    returns their rendering and ends in the range state. *)
Theorem get_range_from_number
    (from_surah to_surah : pyval) (a : Z) (s : quran_mgr)
    (c : sqlite_cursor) :
  cursor s = Some c ->
  py_int from_surah < 1 -> py_int to_surah < 1 ->
  a <> 0 ->
  let rows := filter (fun r => a <=? r_number r) (table c) in
  data_list
    (state_of (get_range from_surah (PyInt a) to_surah (PyBool false) s))
    = rows /\
  returned (get_range from_surah (PyInt a) to_surah (PyBool false) s)
    = Some (rendering (show_ayah_number s) (aya_to_line s) rows) /\
  nav_fields
    (state_of (get_range from_surah (PyInt a) to_surah (PyBool false) s))
    = (-1, -1, 5).
Proof.
  intros Hc Hf Ht Ha rows.
  rewrite (get_range_without_chapters _ _ _ _ s Hf Ht).
  assert (Hq : range_statement (PyInt a) (PyBool false)
               = ("SELECT * FROM quran WHERE  number >= " ++ str_Z a)%string).
  { unfold range_statement, truthy. simpl py_int.
    replace (a =? 0) with false by (symmetry; apply Z.eqb_neq; exact Ha).
    reflexivity. }
  rewrite Hq.
  rewrite (fetch_and_render_run _ rows
             (set_type 5 (set_max_pos (-1) (set_current_pos (-1) s))) c Hc
             (execute_from c a)).
  split; [| split].
  - rewrite get_text_keeps_data_list. reflexivity.
  - rewrite get_text_returns. reflexivity.
  - rewrite keeps_nav_get_text. reflexivity.
Qed.

Lemma get_range_from_number_witness :
  map r_number
    (data_list (state_of (get_range (PyBool false) (PyInt 10)
                            (PyBool false) (PyBool false) sample_mgr)))
  = [10; 6231; 6232].
Proof.
  destruct (get_range_from_number (PyBool false) (PyBool false)
              10 sample_mgr (mk_cursor sample_db []))
    as (Hrows & _ & _).
  - reflexivity.
  - simpl. lia.
  - simpl. lia.
  - discriminate.
  - rewrite Hrows. reflexivity.
Defined.

(** The lower-bound block always returns on a loaded navigator, with the
    same table behind the cursor. *)
Lemma check_from_surah_returns (from_surah from_ayah : pyval)
    (s : quran_mgr) (c : sqlite_cursor) :
  cursor s = Some c ->
  exists (v : pyval) (s1 : quran_mgr) (c1 : sqlite_cursor),
    check_from_surah from_surah from_ayah s = Return v s1 /\
    cursor s1 = Some c1 /\ table c1 = table c.
Proof.
  intros Hc. unfold check_from_surah.
  destruct (Z.leb_spec 1 (py_int from_surah)) as [Hs | Hs].
  - replace (py_int from_surah >=? 1) with true
      by (symmetry; apply Z.geb_le; lia).
    fold (chapter_lookup from_surah). unfold bind at 1.
    rewrite (execute_chapter_lookup from_surah s c Hc Hs).
    set (s1 := set_cursor (Some (logged (chapter_lookup from_surah) c)) s).
    destruct (py_int from_ayah <? 1) eqn:E1.
    { exists (PyInt 1), s1, (logged (chapter_lookup from_surah) c).
      repeat split. }
    unfold len_result.
    destruct (py_int from_ayah
              >? Z.of_nat (List.length
                             (numbers_of_sura (table c) (py_int from_surah))))
      eqn:E2.
    { eexists _, s1, (logged (chapter_lookup from_surah) c).
      repeat split. }
    destruct (numbers_of_sura (table c) (py_int from_surah)) as [| n ns].
    { exfalso. apply Z.ltb_ge in E1. rewrite Z.gtb_ltb in E2.
      apply Z.ltb_ge in E2. simpl in E2. lia. }
    eexists _, s1, (logged (chapter_lookup from_surah) c).
    repeat split.
  - replace (py_int from_surah >=? 1) with false
      by (symmetry; rewrite Z.geb_leb; apply Z.leb_gt; lia).
    exists from_ayah, s, c. repeat split. exact Hc.
Qed.

(** For a chapter without verses the upper-bound block returns 0. *)
Lemma check_to_surah_unknown (to_surah to_ayah : pyval) (s : quran_mgr)
    (c : sqlite_cursor) :
  cursor s = Some c ->
  1 <= py_int to_surah ->
  numbers_of_sura (table c) (py_int to_surah) = [] ->
  check_to_surah to_surah to_ayah s
  = Return (PyInt 0) (set_cursor (Some (logged (chapter_lookup to_surah) c)) s).
Proof.
  intros Hc Hs Hnone. unfold check_to_surah.
  replace (py_int to_surah >=? 1) with true
    by (symmetry; apply Z.geb_le; lia).
  fold (chapter_lookup to_surah). unfold bind at 1.
  rewrite (execute_chapter_lookup to_surah s c Hc Hs), Hnone.
  simpl len_result.
  destruct (Z.ltb_spec (py_int to_ayah) 1) as [H | H]; [reflexivity |].
  change (len_result (Ints [])) with 0.
  replace (py_int to_ayah >? 0) with true
    by (symmetry; apply Z.gtb_lt; lia).
  reflexivity.
Qed.

(** X10.  [get_range] with an upper-bound chapter the table does not
    hold.  When [to_surah] is at least 1 and no row of the table belongs
    to that chapter, [to_ayah] resolves to 0 whatever it was, the last
    branch builds the statement that ends in an unmatched quote, and the
    call raises [OperationalError] whatever the lower bound is.  It still
    ends in the range state. *)
Theorem get_range_unknown_upper_chapter
    (from_surah from_ayah to_surah to_ayah : pyval) (s : quran_mgr)
    (c : sqlite_cursor) :
  cursor s = Some c ->
  1 <= py_int to_surah ->
  numbers_of_sura (table c) (py_int to_surah) = [] ->
  result_of (get_range from_surah from_ayah to_surah to_ayah s)
    = Err OperationalError /\
  nav_fields (state_of (get_range from_surah from_ayah to_surah to_ayah s))
    = (-1, -1, 5).
Proof.
  intros Hc Hs Hnone. split.
  - unfold get_range. rewrite !bind_modify.
    set (s0 := set_type 5 (set_max_pos (-1) (set_current_pos (-1) s))).
    assert (Hc0 : cursor s0 = Some c) by exact Hc.
    destruct (check_from_surah_returns from_surah from_ayah s0 c Hc0)
      as (v & s1 & c1 & Hfrom & Hc1 & Htbl).
    unfold bind at 1. rewrite Hfrom.
    unfold bind at 1.
    rewrite (check_to_surah_unknown to_surah to_ayah s1 c1 Hc1 Hs)
      by (rewrite Htbl; exact Hnone).
    assert (Hq : range_statement v (PyInt 0)
                 = "SELECT * FROM quran WHERE number > 1'"%string).
    { unfold range_statement.
      change (truthy (PyInt 0)) with false. cbv iota.
      change (is_False (PyInt 0)) with false.
      rewrite andb_false_r. reflexivity. }
    rewrite Hq. unfold bind at 1, execute_fetchall. reflexivity.
  - pose proof (get_range_sets_range_state
                  from_surah from_ayah to_surah to_ayah s) as (H1 & H2 & H3).
    unfold nav_fields. rewrite H1, H2, H3. reflexivity.
Qed.

Lemma get_range_unknown_upper_chapter_witness :
  result_of (get_range (PyInt 2) (PyInt 1) (PyInt 3) (PyInt 5) sample_mgr)
  = Err OperationalError.
Proof.
  apply (get_range_unknown_upper_chapter (PyInt 2) (PyInt 1) (PyInt 3)
           (PyInt 5) sample_mgr (mk_cursor sample_db [])).
  - reflexivity.
  - simpl. lia.
  - reflexivity.
Defined.


(* ================================================================= *)
(** ** The look-up by verse number *)

Lemma filter_find_none {A : Type} (p : A -> bool) (l : list A) :
  find p l = None -> filter p l = [].
Proof.
  induction l as [| a l IH]; simpl; [reflexivity |].
  destruct (p a); [discriminate | exact IH].
Qed.

Lemma filter_find_some {A : Type} (p : A -> bool) (l : list A) (r : A) :
  find p l = Some r -> exists rest, filter p l = r :: rest.
Proof.
  induction l as [| a l IH]; simpl; [discriminate |].
  destruct (p a).
  - intros [= ->]. eexists. reflexivity.
  - exact IH.
Qed.

Lemma filter_none {A : Type} (l : list A) :
  filter (fun _ => false) l = [].
Proof. induction l; simpl; auto. Qed.

Lemma col_name_of_cases (t : Z) (name : string) :
  col_name_of t = Some name ->
  (t = 0 /\ name = "page"%string) \/
  (t = 1 /\ name = "sura_number"%string) \/
  (t = 2 /\ name = "hizbQuarter"%string) \/
  (t = 3 /\ name = "hizb"%string) \/
  (t = 4 /\ name = "juz"%string).
Proof.
  unfold col_name_of.
  destruct (Z.eqb_spec t 0); [intros [= <-]; auto |].
  destruct (Z.eqb_spec t 1); [intros [= <-]; auto |].
  destruct (Z.eqb_spec t 2); [intros [= <-]; auto 6 |].
  destruct (Z.eqb_spec t 3); [intros [= <-]; auto 6 |].
  destruct (Z.eqb_spec t 4); [intros [= <-]; auto 6 |].
  discriminate.
Qed.

Lemma col_name_of_none (t : Z) :
  col_name_of t = None <-> (t < 0 \/ 4 < t).
Proof.
  unfold col_name_of. split.
  - destruct (Z.eqb_spec t 0); [discriminate |].
    destruct (Z.eqb_spec t 1); [discriminate |].
    destruct (Z.eqb_spec t 2); [discriminate |].
    destruct (Z.eqb_spec t 3); [discriminate |].
    destruct (Z.eqb_spec t 4); [discriminate |].
    intros _. lia.
  - intros H.
    destruct (Z.eqb_spec t 0); [lia |].
    destruct (Z.eqb_spec t 1); [lia |].
    destruct (Z.eqb_spec t 2); [lia |].
    destruct (Z.eqb_spec t 3); [lia |].
    destruct (Z.eqb_spec t 4); [lia |].
    reflexivity.
Qed.

(** The scalar subquery gives the coordinate of the first verse with the
    number, [NULL] when there is none. *)
Lemma scalar_of_first (col : column) (n : Z) (tbl : list row) :
  scalar (mk_core true (XColumns [IntColumn col]) ColNumber (SqlInt n)
            (Some 1)) tbl
  = match verse_numbered n tbl with
    | Some r0 => SqlInt (column_value col r0)
    | None => SqlNull
    end.
Proof.
  unfold scalar, run_core, verse_numbered.
  cbn [core_column core_rhs core_proj core_distinct core_limit].
  change (column_equals ColNumber (SqlInt n))
    with (fun r => r_number r =? n).
  destruct (find (fun r => r_number r =? n) tbl) as [r0 |] eqn:E.
  - destruct (filter_find_some _ _ _ E) as [rest ->]. reflexivity.
  - rewrite (filter_find_none _ _ E). reflexivity.
Qed.

Lemma fetchone_of_first (col : column) (n : Z) (tbl : list row) :
  fetchone
    (run_xselect
       (mk_core true (XColumns [IntColumn col; TextColumn]) ColNumber
          (inl (SqlInt n)) None) tbl)
  = match verse_numbered n tbl with
    | Some r0 => Some [SqlInt (column_value col r0); SqlText (r_text r0)]
    | None => None
    end.
Proof.
  unfold run_xselect, run_core, verse_numbered.
  cbn [core_column core_rhs core_proj core_distinct core_limit limited].
  change (column_equals ColNumber (SqlInt n))
    with (fun r => r_number r =? n).
  destruct (find (fun r => r_number r =? n) tbl) as [r0 |] eqn:E.
  - destruct (filter_find_some _ _ _ E) as [rest ->]. reflexivity.
  - rewrite (filter_find_none _ _ E). reflexivity.
Qed.

Ltac eval_xparse :=
  match goal with
  | |- context [xtokenize ?q] =>
      let v := eval vm_compute in (xtokenize q) in
      change (xtokenize q) with v
  end;
  cbv beta iota;
  match goal with
  | |- context [parse_xselect ?ts ?ps] =>
      let v := eval vm_compute in (parse_xselect ts ps) in
      change (parse_xselect ts ps) with v
  end;
  cbv beta iota.

(** The first statement of the look-up selects the unit of the category
    that holds the verse. *)
Lemma execute_unit_of_ayah_statement
    (c : sqlite_cursor) (n t : Z) (name : string) :
  col_name_of t = Some name ->
  cursor_execute_x c (unit_of_ayah_statement name) [n]
  = (logged_with (unit_of_ayah_statement name) n c,
     Ok (XRows match verse_numbered n (table c) with
               | Some r0 => unit_rows t (coordinate t r0) (table c)
               | None => []
               end)).
Proof.
  intros H.
  destruct (col_name_of_cases t name H)
    as [[-> ->] | [[-> ->] | [[-> ->] | [[-> ->] | [-> ->]]]]];
    unfold cursor_execute_x; eval_xparse;
    unfold run_xselect, run_core, logged_with;
    cbn [core_column core_rhs core_proj core_distinct core_limit limited];
    rewrite scalar_of_first;
    (destruct (verse_numbered n (table c)) as [r0 |];
     [reflexivity
     | cbn [column_equals]; rewrite filter_none; reflexivity]).
Qed.

(** The second one fetches the coordinate and the text of the verse. *)
Lemma execute_ayah_statement
    (c : sqlite_cursor) (n t : Z) (name : string) :
  col_name_of t = Some name ->
  exists res,
    cursor_execute_x c (ayah_statement name) [n]
      = (logged_with (ayah_statement name) n c, Ok res) /\
    fetchone res
      = match verse_numbered n (table c) with
        | Some r0 => Some [SqlInt (coordinate t r0); SqlText (r_text r0)]
        | None => None
        end.
Proof.
  intros H.
  destruct (col_name_of_cases t name H)
    as [[-> ->] | [[-> ->] | [[-> ->] | [[-> ->] | [-> ->]]]]];
    unfold cursor_execute_x; eval_xparse;
    (eexists; split; [reflexivity |]);
    rewrite fetchone_of_first; reflexivity.
Qed.

Lemma get_max_of_category (t : Z) (name : string) :
  col_name_of t = Some name ->
  QuranConst.get_max t = Ok (category_max t).
Proof.
  intros H.
  destruct (col_name_of_cases t name H)
    as [[-> _] | [[-> _] | [[-> _] | [[-> _] | [-> _]]]]]; reflexivity.
Qed.


Lemma get_by_ayah_number_run
    (n : Z) (s : quran_mgr) (c : sqlite_cursor) (name : string) :
  cursor s = Some c ->
  col_name_of (type s) = Some name ->
  get_by_ayah_number n s
  = match verse_numbered n (table c) with
    | Some r0 =>
        match get_text (looked_up name n r0 c s) with
        | Return full s5 => XReturn (mk_ayah_lookup (r_text r0) full) s5
        | Raise e s5 => XRaise (PyExn e) s5
        end
    | None => XRaise TypeError (looked_up_nothing name n c s)
    end.
Proof.
  intros Hc Hname. unfold get_by_ayah_number.
  rewrite Hname, Hc.
  rewrite (execute_unit_of_ayah_statement c n (type s) name Hname).
  cbv beta iota.
  destruct (execute_ayah_statement
              (logged_with (unit_of_ayah_statement name) n c) n (type s)
              name Hname) as (res & Hex & Hfetch).
  change (table (logged_with (unit_of_ayah_statement name) n c))
    with (table c) in Hfetch.
  destruct (verse_numbered n (table c)) as [r0 |];
    cbn [full_xrows]; rewrite Hex; cbv beta iota; rewrite Hfetch.
  - cbn [type set_current_pos set_cursor set_data_list].
    rewrite (get_max_of_category (type s) name Hname).
    reflexivity.
  - reflexivity.
Qed.

Lemma verse_numbered_in_unit (n t : Z) (tbl : list row) (r0 : row) :
  verse_numbered n tbl = Some r0 ->
  In r0 (unit_rows t (coordinate t r0) tbl).
Proof.
  intros H. apply find_some in H. destruct H as [Hin _].
  unfold unit_rows. apply filter_In. split; [exact Hin |].
  apply Z.eqb_refl.
Qed.

Lemma get_text_return (s : quran_mgr) :
  get_text s
  = Return (rendering (show_ayah_number s) (aya_to_line s) (data_list s))
      (state_of (get_text s)).
Proof.
  pose proof (get_text_result s) as H.
  destruct (get_text s) as [a s' | e s']; simpl in H.
  - injection H as ->. reflexivity.
  - discriminate.
Qed.

(** X11.  The look-up of a verse the table holds, on a loaded navigator
    whose type is one of the five categories.  It returns the text of the
    first row with that number and the rendering of the unit of the
    category that holds this row; it stores the rows of that unit, the
    row's coordinate as [current_pos] (not cut down to the maximum), the
    category maximum as [max_pos], the rendering and its index; and it
    sends its two statements with the number as bound parameter. *)
Theorem get_by_ayah_number_found
    (n : Z) (s : quran_mgr) (c : sqlite_cursor) (name : string) (r0 : row) :
  cursor s = Some c ->
  col_name_of (type s) = Some name ->
  verse_numbered n (table c) = Some r0 ->
  let t := type s in
  let rows := unit_rows t (coordinate t r0) (table c) in
  let full := rendering (show_ayah_number s) (aya_to_line s) rows in
  In r0 rows /\
  xresult_of (get_by_ayah_number n s)
    = inl (mk_ayah_lookup (r_text r0) full) /\
  view (xstate_of (get_by_ayah_number n s))
    = (show_ayah_number s, aya_to_line s,
       (coordinate t r0, category_max t, t), rows, Some (table c), full,
       Some (spans_from (show_ayah_number s) (aya_to_line s) 0 rows)) /\
  statements (xstate_of (get_by_ayah_number n s))
    = executed c ++ [(unit_of_ayah_statement name, [PyInt n]);
                     (ayah_statement name, [PyInt n])].
Proof.
  intros Hc Hname Hr0 t rows full.
  pose proof (verse_numbered_in_unit n t (table c) r0 Hr0) as Hin.
  fold rows in Hin.
  rewrite (get_by_ayah_number_run n s c name Hc Hname), Hr0.
  rewrite (get_text_return (looked_up name n r0 c s)).
  cbn [xresult_of xstate_of].
  split; [exact Hin |]. split; [reflexivity |]. split.
  - rewrite get_text_view.
    change (data_list (looked_up name n r0 c s)) with rows.
    destruct rows as [| r rest] eqn:E; [destruct Hin |].
    reflexivity.
  - unfold statements. rewrite get_text_keeps_cursor.
    cbn. rewrite <- app_assoc. reflexivity.
Qed.

Lemma get_by_ayah_number_found_witness :
  xresult_of (get_by_ayah_number 3 (sample_tagged 1))
  = inl (mk_ayah_lookup (r_text third_verse)
           (rendering (show_ayah_number sample_mgr) (aya_to_line sample_mgr)
              (unit_rows 1 1 sample_db))).
Proof.
  destruct (get_by_ayah_number_found 3 (sample_tagged 1)
              (mk_cursor sample_db []) "sura_number" third_verse)
    as (_ & H & _).
  - reflexivity.
  - reflexivity.
  - vm_compute. reflexivity.
  - exact H.
Defined.

(** X12.  The look-up of a number no row has, on a loaded navigator whose
    type is one of the five categories: [TypeError], after both
    statements were sent.  The verse list is left empty; the position,
    the bound, the text and the index are the ones from before. *)
Theorem get_by_ayah_number_unknown
    (n : Z) (s : quran_mgr) (c : sqlite_cursor) (name : string) :
  cursor s = Some c ->
  col_name_of (type s) = Some name ->
  verse_numbered n (table c) = None ->
  xresult_of (get_by_ayah_number n s) = inr TypeError /\
  view (xstate_of (get_by_ayah_number n s))
    = (show_ayah_number s, aya_to_line s, nav_fields s, [],
       Some (table c), text s, ayah_data s) /\
  statements (xstate_of (get_by_ayah_number n s))
    = executed c ++ [(unit_of_ayah_statement name, [PyInt n]);
                     (ayah_statement name, [PyInt n])].
Proof.
  intros Hc Hname Hnone.
  rewrite (get_by_ayah_number_run n s c name Hc Hname), Hnone.
  cbn [xresult_of xstate_of].
  split; [reflexivity |]. split; [reflexivity |].
  unfold statements. cbn. rewrite <- app_assoc. reflexivity.
Qed.

Lemma get_by_ayah_number_unknown_witness :
  xresult_of (get_by_ayah_number 11 (sample_tagged 0)) = inr TypeError /\
  data_list (xstate_of (get_by_ayah_number 11 (sample_tagged 0))) = [].
Proof.
  destruct (get_by_ayah_number_unknown 11 (sample_tagged 0)
              (mk_cursor sample_db []) "page")
    as (Hres & Hview & _).
  - reflexivity.
  - reflexivity.
  - vm_compute. reflexivity.
  - split; [exact Hres |].
    exact (f_equal (fun v => snd (fst (fst (fst v)))) Hview).
Defined.

(** X13.  The look-up asserts the category before it touches the cursor.
    With a type outside 0 to 4 it raises [AssertionError] and changes
    nothing, whether a table is loaded or not, and sends no statement.
    This is the case after every [get_range], which leaves type 5 on every
    path. *)
Theorem get_by_ayah_number_needs_category (n : Z) (s : quran_mgr) :
  (type s < 0 \/ 4 < type s ->
   get_by_ayah_number n s = XRaise AssertionError s) /\
  (forall from_surah from_ayah to_surah to_ayah : pyval,
     let r := state_of (get_range from_surah from_ayah to_surah to_ayah s) in
     get_by_ayah_number n r = XRaise AssertionError r).
Proof.
  assert (G : forall q, type q < 0 \/ 4 < type q ->
                        get_by_ayah_number n q = XRaise AssertionError q).
  { intros q H. apply col_name_of_none in H.
    unfold get_by_ayah_number. rewrite H. reflexivity. }
  split; [apply G |].
  intros a b c d r. apply G.
  destruct (get_range_sets_range_state a b c d s) as (_ & _ & Ht).
  fold r in Ht. lia.
Qed.

Lemma get_by_ayah_number_needs_category_witness :
  get_by_ayah_number 3 (sample_tagged 5)
  = XRaise AssertionError (sample_tagged 5).
Proof.
  destruct (get_by_ayah_number_needs_category 3 (sample_tagged 5))
    as (H & _).
  apply H. right. apply Z.ltb_lt. reflexivity.
Defined.

(** X14.  The look-up shows what the selector of the category shows for
    the unit that holds the verse.  When the coordinate of the verse is
    not above the category maximum, the look-up returns as full text what
    the selector returns for that coordinate, and both leave the same
    state but for the statements sent. *)
Theorem get_by_ayah_number_shows_unit
    (n : Z) (s : quran_mgr) (c : sqlite_cursor) (name : string) (r0 : row) :
  cursor s = Some c ->
  col_name_of (type s) = Some name ->
  verse_numbered n (table c) = Some r0 ->
  coordinate (type s) r0 <= category_max (type s) ->
  let unit := selector (type s) (coordinate (type s) r0) s in
  exists found,
    xresult_of (get_by_ayah_number n s) = inl found /\
    ayah_text found = r_text r0 /\
    result_of unit = Ok (full_text found) /\
    view (xstate_of (get_by_ayah_number n s)) = view (state_of unit).
Proof.
  intros Hc Hname Hr0 Hle unit.
  assert (Ht : dispatch_tag (type s) = type s).
  { destruct (col_name_of_cases _ _ Hname)
      as [[-> _] | [[-> _] | [[-> _] | [[-> _] | [-> _]]]]]; reflexivity. }
  pose proof (verse_numbered_in_unit n (type s) (table c) r0 Hr0) as Hin.
  rewrite (get_by_ayah_number_run n s c name Hc Hname), Hr0.
  rewrite (get_text_return (looked_up name n r0 c s)).
  cbn [xresult_of xstate_of].
  eexists. split; [reflexivity |]. split; [reflexivity |].
  unfold unit.
  rewrite (selector_run (type s) (coordinate (type s) r0) s c Hc).
  rewrite get_text_result, !get_text_view.
  change (data_list (looked_up name n r0 c s))
    with (unit_rows (type s) (coordinate (type s) r0) (table c)).
  change (data_list (selected (type s) (coordinate (type s) r0) c s))
    with (unit_rows (dispatch_tag (type s)) (coordinate (type s) r0)
            (table c)).
  change (show_ayah_number (selected (type s) (coordinate (type s) r0) c s))
    with (show_ayah_number s).
  change (aya_to_line (selected (type s) (coordinate (type s) r0) c s))
    with (aya_to_line s).
  change (nav_fields (selected (type s) (coordinate (type s) r0) c s))
    with ((if coordinate (type s) r0 >? category_max (dispatch_tag (type s))
           then category_max (dispatch_tag (type s))
           else coordinate (type s) r0),
          category_max (dispatch_tag (type s)), dispatch_tag (type s)).
  rewrite Ht.
  replace (coordinate (type s) r0 >? category_max (type s)) with false
    by (symmetry; rewrite Z.gtb_ltb; apply Z.ltb_ge; lia).
  destruct (unit_rows (type s) (coordinate (type s) r0) (table c))
    as [| r rest]; [destruct Hin |].
  split; reflexivity.
Qed.

Lemma get_by_ayah_number_shows_unit_witness :
  exists found,
    xresult_of (get_by_ayah_number 3 (sample_tagged 1)) = inl found /\
    ayah_text found = r_text third_verse /\
    result_of (get_surah 1 (sample_tagged 1)) = Ok (full_text found) /\
    view (xstate_of (get_by_ayah_number 3 (sample_tagged 1)))
      = view (state_of (get_surah 1 (sample_tagged 1))).
Proof.
  destruct selector_names as (_ & E1 & _). rewrite <- E1.
  apply (get_by_ayah_number_shows_unit 3 (sample_tagged 1)
           (mk_cursor sample_db []) "sura_number" third_verse).
  - reflexivity.
  - reflexivity.
  - vm_compute. reflexivity.
  - apply Z.leb_le. vm_compute. reflexivity.
Defined.
